(** * simple_cors_proxy.py: the CORS forwarding handler

    A shallow embedding of [CORSProxyHandler] (src/simple_cors_proxy.py)
    together with the parts of the Python standard library it runs on,
    after CPython 3.11: [str] methods, [urllib.parse.parse_qs]
    (Lib/urllib/parse.py), [html.escape] (Lib/html/__init__.py) and the
    response methods of [http.server.BaseHTTPRequestHandler]
    (Lib/http/server.py).  [urllib.request] is the network: it is a field of
    the [world] the handler runs in.

    A Python [str] is a list of code points, a [bytes] object a list of
    bytes.  The handler is written in a state-and-exception monad over the
    handler object. *)

From Stdlib Require Import NArith String Ascii List DecimalString.
From Stdlib.Strings Require Import Byte.
From stdpp Require Import base option list gmap.

Local Open Scope N_scope.

(** ** Python values *)

Abbreviation pystr := (list N).
Abbreviation bytes := (list byte).

(** A literal: the code points of an ASCII source string. *)
Definition py (s : string) : pystr := map N_of_ascii (list_ascii_of_string s).
Arguments py s%_string.

(** The byte with value [n]; callers pass [n < 256]. *)
Definition chr_byte (n : N) : byte := default x00 (Byte.of_N n).

#[global] Instance byte_eq_decision : EqDecision byte := Byte.byte_eq_dec.

(** ** [str] and [bytes] methods *)

Section Sequences.
Context {A : Type} `{EqDecision A}.

(** [s.startswith(prefix)] *)
Fixpoint startswith (s prefix : list A) : bool :=
  match prefix, s with
  | [], _ => true
  | p :: prefix', c :: s' => bool_decide (p = c) && startswith s' prefix'
  | _ :: _, [] => false
  end.

(** [sep in s] for a one-character [sep] *)
Definition contains (sep : A) (s : list A) : bool :=
  existsb (fun c => bool_decide (c = sep)) s.

(** [s.split(sep)] for a one-character [sep]: never the empty list. *)
Fixpoint split (sep : A) (s : list A) : list (list A) :=
  match s with
  | [] => [[]]
  | c :: s' =>
      if decide (c = sep) then [] :: split sep s'
      else match split sep s' with
           | w :: ws => (c :: w) :: ws
           | [] => [[c]]
           end
  end.

(** [s.split(sep, 1)]: one or two pieces. *)
Fixpoint split1 (sep : A) (s : list A) : list (list A) :=
  match s with
  | [] => [[]]
  | c :: s' =>
      if decide (c = sep) then [[]; s']
      else match split1 sep s' with
           | w :: ws => (c :: w) :: ws
           | [] => [[c]]
           end
  end.

(** [s.replace(old, new)] for a one-character [old] *)
Definition replace (old : A) (new : list A) (s : list A) : list A :=
  flat_map (fun c => if decide (c = old) then new else [c]) s.

(** [needle in haystack] for sequences: a contiguous occurrence. *)
Fixpoint occurs_in (needle haystack : list A) : bool :=
  startswith haystack needle ||
  match haystack with
  | [] => false
  | _ :: rest => occurs_in needle rest
  end.
End Sequences.

(** [str(n)] and ["%d" % n] for a non-negative integer *)
Definition str_of_N (n : N) : pystr :=
  py (NilEmpty.string_of_uint (N.to_uint n)).

(** ** UTF-8, as [bytes.decode('utf-8', 'replace')] and
    [str.encode('utf-8', 'replace')] do it *)

Definition U_FFFD : N := 65533.

Definition is_continuation_byte (ch : N) : bool := (128 <=? ch) && (ch <? 192).

(** The decoder over byte values.  An ill-formed sequence gives one U+FFFD
    for the bytes the decoder rejects together (an invalid start byte, the
    bytes before an invalid continuation byte, or a sequence cut off by the
    end of the data), and decoding goes on after them. *)
Fixpoint utf8_decode (s : list N) : pystr :=
  match s with
  | [] => []
  | ch :: s1 =>
      if ch <? 128 then ch :: utf8_decode s1
      else if ch <? 224 then
        if ch <? 194 then U_FFFD :: utf8_decode s1
        else match s1 with
             | [] => [U_FFFD]
             | ch2 :: s2 =>
                 if is_continuation_byte ch2
                 then (ch * 64 + ch2 - 12416) :: utf8_decode s2
                 else U_FFFD :: utf8_decode s1
             end
      else if ch <? 240 then
        match s1 with
        | [] => [U_FFFD]
        | ch2 :: s2 =>
            if negb (is_continuation_byte ch2)
               || (if ch2 <? 160 then ch =? 224 else ch =? 237)
            then U_FFFD :: utf8_decode s1
            else match s2 with
                 | [] => [U_FFFD]
                 | ch3 :: s3 =>
                     if is_continuation_byte ch3
                     then (ch * 4096 + ch2 * 64 + ch3 - 925824) :: utf8_decode s3
                     else U_FFFD :: utf8_decode s2
                 end
        end
      else if ch <? 245 then
        match s1 with
        | [] => [U_FFFD]
        | ch2 :: s2 =>
            if negb (is_continuation_byte ch2)
               || (if ch2 <? 144 then ch =? 240 else ch =? 244)
            then U_FFFD :: utf8_decode s1
            else match s2 with
                 | [] => [U_FFFD]
                 | ch3 :: s3 =>
                     if negb (is_continuation_byte ch3)
                     then U_FFFD :: utf8_decode s2
                     else match s3 with
                          | [] => [U_FFFD]
                          | ch4 :: s4 =>
                              if is_continuation_byte ch4
                              then (ch * 262144 + ch2 * 4096 + ch3 * 64 + ch4
                                    - 63447168) :: utf8_decode s4
                              else U_FFFD :: utf8_decode s3
                          end
                 end
        end
      else U_FFFD :: utf8_decode s1
  end.

(** [b.decode('utf-8', 'replace')] *)
Definition decode_utf8_replace (b : bytes) : pystr :=
  utf8_decode (map Byte.to_N b).

(** One code point of [s.encode('utf-8', 'replace')]: a lone surrogate
    becomes [?]. *)
Definition utf8_encode_char (c : N) : bytes :=
  if c <? 128 then [chr_byte c]
  else if c <? 2048 then [chr_byte (192 + c / 64); chr_byte (128 + c mod 64)]
  else if (55296 <=? c) && (c <? 57344) then [chr_byte 63]
  else if c <? 65536 then
    [chr_byte (224 + c / 4096); chr_byte (128 + (c / 64) mod 64);
     chr_byte (128 + c mod 64)]
  else
    [chr_byte (240 + c / 262144); chr_byte (128 + (c / 4096) mod 64);
     chr_byte (128 + (c / 64) mod 64); chr_byte (128 + c mod 64)].

(** [s.encode('utf-8', 'replace')] *)
Definition encode_utf8_replace (s : pystr) : bytes := flat_map utf8_encode_char s.

(** ** urllib.parse *)

(** A key of [_hextobyte] is two characters of [_hexdig]. *)
Definition hexdig (b : byte) : option N :=
  let n := Byte.to_N b in
  if (48 <=? n) && (n <=? 57) then Some (n - 48)
  else if (65 <=? n) && (n <=? 70) then Some (n - 55)
  else if (97 <=? n) && (n <=? 102) then Some (n - 87)
  else None.

(** The body of the loop over [bits[1:]] in [unquote_to_bytes]: the byte of
    [item[:2]] followed by [item[2:]], or, on [KeyError], [b'%'] and the
    item unchanged. *)
Definition unquote_item (item : bytes) : bytes :=
  match item with
  | a :: b :: rest =>
      match hexdig a, hexdig b with
      | Some h, Some l => chr_byte (16 * h + l) :: rest
      | _, _ => x25 :: item
      end
  | _ => x25 :: item
  end.

(** [unquote_to_bytes(string)] for a [str] argument.  [unquote] calls it on
    runs of ASCII characters, where [string.encode('utf-8')] cannot fail. *)
Definition unquote_to_bytes (string : pystr) : bytes :=
  match string with
  | [] => []
  | _ =>
      let string := encode_utf8_replace string in
      match split x25 string with
      | bits0 :: ((_ :: _) as items) => bits0 ++ flat_map unquote_item items
      | _ => string
      end
  end.

(** [_asciire.split(string)], each piece tagged: [true] for a maximal run of
    characters in [\x00-\x7f] (the odd positions of the result), [false] for
    the characters between two runs. *)
Fixpoint asciire_split (string : pystr) : list (bool * pystr) :=
  match string with
  | [] => []
  | c :: rest =>
      let a := c <? 128 in
      match asciire_split rest with
      | (a', run) :: bits =>
          if Bool.eqb a a' then (a, c :: run) :: bits
          else (a, [c]) :: (a', run) :: bits
      | [] => [(a, [c])]
      end
  end.

(** [unquote(string, encoding='utf-8', errors='replace')] *)
Definition unquote (string : pystr) : pystr :=
  if negb (contains 37 string) then string
  else
    flat_map (fun bit : bool * pystr =>
                if bit.1 then decode_utf8_replace (unquote_to_bytes bit.2)
                else bit.2)
             (asciire_split string).

(** The body of the loop of [parse_qsl] over [query_args], with the defaults
    [parse_qs] passes on ([keep_blank_values=False], [strict_parsing=False]):
    the pairs one [name_value] appends to [r].  An empty field, a field
    without [=] and a field with a blank value append nothing. *)
Definition parse_field (name_value : pystr) : list (pystr * pystr) :=
  match name_value with
  | [] => []
  | _ =>
      match split1 61 name_value with
      | [name; value] =>
          match value with
          | [] => []
          | _ => [(unquote (replace 43 [32] name),
                   unquote (replace 43 [32] value))]
          end
      | _ => []
      end
  end.

(** [parse_qsl(qs)] with [separator='&'] and [max_num_fields=None] *)
Definition parse_qsl (qs : pystr) : list (pystr * pystr) :=
  let query_args := match qs with [] => [] | _ => split 38 qs end in
  flat_map parse_field query_args.

(** [parse_qs(qs)]: the dictionary from each name to the list of its values,
    in the order of the query. *)
Definition parse_qs (qs : pystr) : gmap pystr (list pystr) :=
  fold_left (fun parsed_result (pair : pystr * pystr) =>
               match parsed_result !! pair.1 with
               | Some values => <[pair.1 := values ++ [pair.2]]> parsed_result
               | None => <[pair.1 := [pair.2]]> parsed_result
               end)
            (parse_qsl qs) ∅.

(** ** html *)

(** [html.escape(s, quote=False)] *)
Definition escape (s : pystr) : pystr :=
  let s := replace 38 (py "&amp;") s in
  let s := replace 60 (py "&lt;") s in
  let s := replace 62 (py "&gt;") s in
  s.

(** ** Exceptions *)

(** A raised [Exception]: its class and what [str(e)] gives. *)
Record exception := Exception_ { exc_class : string; exc_str : pystr }.

Inductive result (A : Type) : Type :=
| Return (a : A)
| Raise (e : exception).
Arguments Return {A} a.
Arguments Raise {A} e.

(** [n] as [width] lower-case hexadecimal digits, as [%0<width>x] prints it. *)
Fixpoint hex_fixed (width : nat) (n : N) : pystr :=
  match width with
  | O => []
  | S w => hex_fixed w (n / 16) ++ [if n mod 16 <? 10 then 48 + n mod 16 else 87 + n mod 16]
  end.

(** The characters from the start of [s] that satisfy [p]. *)
Fixpoint span_of (p : N -> bool) (s : pystr) : pystr * pystr :=
  match s with
  | [] => ([], [])
  | c :: rest =>
      if p c then let (run, tail) := span_of p rest in (c :: run, tail)
      else ([], s)
  end.

(** [str(e)] of the [UnicodeEncodeError] of the latin-1 codec for the
    characters [bad] found at position [start]. *)
Definition UnicodeEncodeError_str (start : N) (bad : pystr) : pystr :=
  match bad with
  | [badchar] =>
      py "'latin-1' codec can't encode character '"
      ++ (if badchar <=? 65535 then py "\u" ++ hex_fixed 4 badchar
          else py "\U" ++ hex_fixed 8 badchar)
      ++ py "' in position " ++ str_of_N start
      ++ py ": ordinal not in range(256)"
  | _ =>
      py "'latin-1' codec can't encode characters in position "
      ++ str_of_N start ++ py "-"
      ++ str_of_N (start + N.of_nat (length bad) - 1)
      ++ py ": ordinal not in range(256)"
  end.

(** [s.encode('latin-1', 'strict')]: a character above U+00FF raises. *)
Definition encode_latin1 (s : pystr) : result bytes :=
  let (good, rest) := span_of (fun c => c <? 256) s in
  match rest with
  | [] => Return (map chr_byte s)
  | _ =>
      Raise (Exception_ "UnicodeEncodeError"
               (UnicodeEncodeError_str (N.of_nat (length good))
                  (span_of (fun c => 256 <=? c) rest).1))
  end.

(** ** urllib.request, the network *)

(** What the handler puts into a [urllib.request.Request]: [full_url], the
    url as the constructor stores it, no [data], and the headers added
    with [add_header]. *)
Record Request := {
  full_url : pystr;
  data : option bytes;
  request_headers : gmap pystr pystr
}.

(** [req.get_method()] *)
Definition get_method (req : Request) : pystr :=
  match data req with Some _ => py "POST" | None => py "GET" end.

(** [key.capitalize()] for an ASCII [key], the only kind the handler passes:
    first letter upper-case, the others lower-case. *)
Definition capitalize (key : pystr) : pystr :=
  let upper c := if (97 <=? c) && (c <=? 122) then c - 32 else c in
  let lower c := if (65 <=? c) && (c <=? 90) then c + 32 else c in
  match key with
  | [] => []
  | c :: rest => upper c :: map lower rest
  end.

(** [req.add_header(key, val)] *)
Definition add_header (req : Request) (key val : pystr) : Request :=
  {| full_url := full_url req;
     data := data req;
     request_headers := <[capitalize key := val]> (request_headers req) |}.

(** [c.isspace()] *)
Definition isspace (c : N) : bool :=
  ((9 <=? c) && (c <=? 13)) || ((28 <=? c) && (c <=? 32))
  || (c =? 133) || (c =? 160) || (c =? 5760)
  || ((8192 <=? c) && (c <=? 8202))
  || (c =? 8232) || (c =? 8233) || (c =? 8239) || (c =? 8287) || (c =? 12288).

(** [s.lstrip()] *)
Fixpoint lstrip (s : pystr) : pystr :=
  match s with
  | [] => []
  | c :: rest => if isspace c then lstrip rest else s
  end.

(** [s.strip()] *)
Definition strip (s : pystr) : pystr := rev (lstrip (rev (lstrip s))).

(** [urllib.parse.unwrap(url)]: surrounding whitespace, an enclosing [<...>]
    and a [URL:] prefix are taken off. *)
Definition unwrap (url : pystr) : pystr :=
  let url := strip url in
  let url :=
    if bool_decide (take 1 url = [60])
       && bool_decide (drop (length url - 1) url = [62])
    then strip (drop 1 (take (length url - 1) url))
    else url in
  let url :=
    if bool_decide (take 4 url = py "URL:") then strip (drop 4 url) else url in
  url.

(** [s.rpartition(sep)] for a one-character [sep]: the parts before and
    after the last [sep], if there is one. *)
Fixpoint rpartition (sep : N) (s : pystr) : option (pystr * pystr) :=
  match s with
  | [] => None
  | c :: rest =>
      match rpartition sep rest with
      | Some (before, after) => Some (c :: before, after)
      | None => if decide (c = sep) then Some ([], rest) else None
      end
  end.

(** [urllib.parse._splittag(url)] *)
Definition splittag (url : pystr) : pystr * option pystr :=
  match rpartition 35 url with
  | Some (path, tag) => (path, Some tag)
  | None => (url, None)
  end.

(** [req.full_url] of [req = Request(url)]: the setter stores [unwrap(url)]
    without its fragment, the getter puts a fragment that is not empty
    back. *)
Definition Request_full_url (url : pystr) : pystr :=
  let (base, fragment) := splittag (unwrap url) in
  match fragment with
  | Some ((_ :: _) as fragment) => base ++ [35] ++ fragment
  | _ => base
  end.

(** The world outside the handler during one request: the interpreter
    version and the clock that [send_response] stamps on every response, and
    the two steps of [urllib.request] that can fail or answer.
    [Request_raises url] is the exception of [urllib.request.Request(url)],
    if it raises one (a url of unknown type); [urlopen_read req] is the
    outcome of [urlopen(req)] followed by [response.read()]: the body, or
    the exception raised on the way (DNS, connection, TLS, an upstream
    status that makes the client raise, a truncated read). *)
Record world := {
  sys_version : string;
  date_time_string : string;
  Request_raises : pystr -> option exception;
  urlopen_read : Request -> result bytes
}.

(** ** The handler object *)

(** A line put into [_headers_buffer].  [StatusLine code message] stands for
    ["HTTP/1.0 <code> <message>\r\n"], [HeaderLine keyword value] for
    ["<keyword>: <value>\r\n"], [BlankLine] for the ["\r\n"] that ends the
    headers. *)
Inductive line :=
| StatusLine (code : N) (message : pystr)
| HeaderLine (keyword value : pystr)
| BlankLine.

(** One [wfile.write]: the flushed header buffer, or body bytes. *)
Inductive chunk :=
| Head (lines : list line)
| Body (b : bytes).

(** The handler instance serving one request, with the two process-wide
    streams its methods touch: what was printed, and the requests handed to
    [urlopen].  [command], [path] and [headers] are the attributes
    [parse_request] stored from the request line and the caller's headers.
    The request line carries an HTTP/1.x version, so [request_version] is
    not ['HTTP/0.9'] and the response methods use the header buffer; logging
    to stderr is not modelled. *)
Record handler := {
  command : pystr;
  path : pystr;
  headers : list (pystr * pystr);
  headers_buffer : list line;
  wfile : list chunk;
  stdout : list pystr;
  urlopen_calls : list Request
}.

Definition new_handler (command path : pystr) (headers : list (pystr * pystr))
  : handler :=
  {| command := command; path := path; headers := headers;
     headers_buffer := []; wfile := []; stdout := []; urlopen_calls := [] |}.

(** ** The monad of handler methods: state, and Python exceptions *)

Definition M (A : Type) : Type := handler -> result A * handler.

#[global] Instance M_ret : MRet M := fun A a h => (Return a, h).
#[global] Instance M_bind : MBind M := fun A B f m h =>
  match m h with
  | (Return a, h') => f a h'
  | (Raise e, h') => (Raise e, h')
  end.

Definition raise {A} (e : exception) : M A := fun h => (Raise e, h).

(** A pure computation that may raise. *)
Definition lift {A} (r : result A) : M A := fun h => (r, h).

(** [try: body  except Exception as e: handle(e)] *)
Definition try_except {A} (body : M A) (handle : exception -> M A) : M A :=
  fun h =>
    match body h with
    | (Return a, h') => (Return a, h')
    | (Raise e, h') => handle e h'
    end.

Definition get {A} (field : handler -> A) : M A := fun h => (Return (field h), h).

Definition buffer_append (l : line) : M unit := fun h =>
  (Return tt,
   {| command := command h; path := path h; headers := headers h;
      headers_buffer := headers_buffer h ++ [l]; wfile := wfile h;
      stdout := stdout h; urlopen_calls := urlopen_calls h |}).

(** [self.wfile.write(b)] of a chunk, on a connection the caller keeps open:
    the write does not fail. *)
Definition wfile_write (c : chunk) : M unit := fun h =>
  (Return tt,
   {| command := command h; path := path h; headers := headers h;
      headers_buffer := headers_buffer h; wfile := wfile h ++ [c];
      stdout := stdout h; urlopen_calls := urlopen_calls h |}).

(** [print(s)], to a stdout that takes every string *)
Definition print (s : pystr) : M unit := fun h =>
  (Return tt,
   {| command := command h; path := path h; headers := headers h;
      headers_buffer := headers_buffer h; wfile := wfile h;
      stdout := stdout h ++ [s]; urlopen_calls := urlopen_calls h |}).

(** ** http.server.BaseHTTPRequestHandler *)

Definition CRLF : pystr := [13; 10].

Definition protocol_version : pystr := py "HTTP/1.0".

(** [self.responses[code]], the rows of the codes this handler sends:
    the short and the long message. *)
Definition responses (code : N) : option (pystr * pystr) :=
  if code =? 200 then Some (py "OK", py "Request fulfilled, document follows")
  else if code =? 400
  then Some (py "Bad Request", py "Bad request syntax or unsupported method")
  else if code =? 404
  then Some (py "Not Found", py "Nothing matches the given URI")
  else if code =? 500
  then Some (py "Internal Server Error", py "Server got itself in trouble")
  else None.

(** [self.version_string()] *)
Definition version_string (W : world) : pystr :=
  py "BaseHTTP/0.6" ++ py " " ++ py (sys_version W).

(** [DEFAULT_ERROR_MESSAGE % {'code': .., 'message': .., 'explain': ..}] *)
Definition error_message_format (code : N) (message explain : pystr) : pystr :=
  let nl := [10] in
  let dq := [34] in
  py "<!DOCTYPE HTML>" ++ nl
  ++ py "<html lang=" ++ dq ++ py "en" ++ dq ++ py ">" ++ nl
  ++ py "    <head>" ++ nl
  ++ py "        <meta charset=" ++ dq ++ py "utf-8" ++ dq ++ py ">" ++ nl
  ++ py "        <title>Error response</title>" ++ nl
  ++ py "    </head>" ++ nl
  ++ py "    <body>" ++ nl
  ++ py "        <h1>Error response</h1>" ++ nl
  ++ py "        <p>Error code: " ++ str_of_N code ++ py "</p>" ++ nl
  ++ py "        <p>Message: " ++ message ++ py ".</p>" ++ nl
  ++ py "        <p>Error code explanation: " ++ str_of_N code ++ py " - "
  ++ explain ++ py ".</p>" ++ nl
  ++ py "    </body>" ++ nl
  ++ py "</html>" ++ nl.

Definition error_content_type : pystr := py "text/html;charset=utf-8".

(** ["%s %d %s\r\n" % (self.protocol_version, code, message)] *)
Definition status_text (code : N) (message : pystr) : pystr :=
  protocol_version ++ py " " ++ str_of_N code ++ py " " ++ message ++ CRLF.

(** [self.send_response_only(code, message)] *)
Definition send_response_only (code : N) (message : option pystr) : M unit :=
  let message :=
    match message with
    | Some message => message
    | None => match responses code with
              | Some (shortmsg, _) => shortmsg
              | None => []
              end
    end in
  _ ← lift (encode_latin1 (status_text code message));
  buffer_append (StatusLine code message).

(** [self.send_header(keyword, value)].  The [close_connection] flag it sets
    for a [Connection] header is read by the server loop only and is not
    modelled. *)
Definition send_header (keyword value : pystr) : M unit :=
  _ ← lift (encode_latin1 (keyword ++ py ": " ++ value ++ CRLF));
  buffer_append (HeaderLine keyword value).

(** [self.flush_headers()] *)
Definition flush_headers : M unit := fun h =>
  (Return tt,
   {| command := command h; path := path h; headers := headers h;
      headers_buffer := []; wfile := wfile h ++ [Head (headers_buffer h)];
      stdout := stdout h; urlopen_calls := urlopen_calls h |}).

(** [self.end_headers()] *)
Definition end_headers : M unit :=
  buffer_append BlankLine;; flush_headers.

(** [self.send_response(code, message)] *)
Definition send_response (W : world) (code : N) (message : option pystr)
  : M unit :=
  send_response_only code message;;
  send_header (py "Server") (version_string W);;
  send_header (py "Date") (py (date_time_string W)).

(** [self.send_error(code, message)], with [explain] left to its default *)
Definition send_error (W : world) (code : N) (message : option pystr) : M unit :=
  let (shortmsg, longmsg) :=
    match responses code with
    | Some row => row
    | None => (py "???", py "???")
    end in
  let message := match message with Some message => message | None => shortmsg end in
  let explain := longmsg in
  send_response W code (Some message);;
  send_header (py "Connection") (py "close");;
  body ←
    (if (200 <=? code) && negb ((code =? 204) || (code =? 205) || (code =? 304))
     then
       let content := error_message_format code (escape message) (escape explain) in
       let body := encode_utf8_replace content in
       send_header (py "Content-Type") error_content_type;;
       send_header (py "Content-Length") (str_of_N (N.of_nat (length body)));;
       mret (Some body)
     else mret None);
  end_headers;;
  self_command ← get command;
  match body with
  | Some ((_ :: _) as body) =>
      if bool_decide (self_command ≠ py "HEAD") then wfile_write (Body body)
      else mret tt
  | _ => mret tt
  end.

(** ** urllib.request, as the handler calls it *)

(** [urllib.request.Request(url)] *)
Definition Request_ (W : world) (url : pystr) : M Request :=
  match Request_raises W url with
  | Some e => raise e
  | None =>
      mret {| full_url := Request_full_url url; data := None;
              request_headers := ∅ |}
  end.

(** [with urllib.request.urlopen(req) as response: data = response.read()] *)
Definition urlopen (W : world) (req : Request) : M bytes := fun h =>
  (urlopen_read W req,
   {| command := command h; path := path h; headers := headers h;
      headers_buffer := headers_buffer h; wfile := wfile h;
      stdout := stdout h; urlopen_calls := urlopen_calls h ++ [req] |}).

(** ** CORSProxyHandler *)

Definition user_agent : pystr :=
  py "Mozilla/5.0 (Windows NT 10.0; Win64; x64) AppleWebKit/537.36".

(** [values[0]] *)
Definition item0 (values : list pystr) : M pystr :=
  match values with
  | v :: _ => mret v
  | [] => raise (Exception_ "IndexError" (py "list index out of range"))
  end.

(** [CORSProxyHandler.do_GET] *)
Definition do_GET (W : world) : M unit :=
  try_except
    (self_path ← get path;
     if startswith self_path (py "/proxy?") then
       let query_string := drop 7 self_path in
       let params := parse_qs query_string in
       match params !! py "url" with
       | None => send_error W 400 (Some (py "Missing 'url' parameter"))
       | Some values =>
           target_url ← item0 values;
           print (py "Proxying request to: " ++ target_url);;
           req ← Request_ W target_url;
           let req := add_header req (py "User-Agent") user_agent in
           data ← urlopen W req;
           send_response W 200 None;;
           send_header (py "Access-Control-Allow-Origin") (py "*");;
           send_header (py "Access-Control-Allow-Methods") (py "GET, POST, OPTIONS");;
           send_header (py "Access-Control-Allow-Headers") (py "Content-Type");;
           send_header (py "Content-Type") (py "application/json");;
           end_headers;;
           wfile_write (Body data)
       end
     else send_error W 404 (Some (py "Not Found")))
    (fun e =>
       print (py "Error: " ++ exc_str e);;
       send_error W 500 (Some (py "Proxy Error: " ++ exc_str e))).

(** [CORSProxyHandler.do_OPTIONS] *)
Definition do_OPTIONS (W : world) : M unit :=
  send_response W 200 None;;
  send_header (py "Access-Control-Allow-Origin") (py "*");;
  send_header (py "Access-Control-Allow-Methods") (py "GET, POST, OPTIONS");;
  send_header (py "Access-Control-Allow-Headers") (py "Content-Type");;
  end_headers.

(** A request with method [GET]: [handle_one_request] calls [do_GET] on the
    handler holding the request line and the caller's headers. *)
Definition GET (W : world) (path : pystr) (headers : list (pystr * pystr))
  : result unit * handler :=
  do_GET W (new_handler (py "GET") path headers).

(** A request with method [OPTIONS]. *)
Definition OPTIONS (W : world) (path : pystr) (headers : list (pystr * pystr))
  : result unit * handler :=
  do_OPTIONS W (new_handler (py "OPTIONS") path headers).

(** ** The response on the wire *)

Record response := {
  status : option (N * pystr);
  header_fields : list (pystr * pystr);
  body : bytes
}.

Definition written_lines (w : list chunk) : list line :=
  flat_map (fun c => match c with Head ls => ls | Body _ => [] end) w.

Definition written_body (w : list chunk) : bytes :=
  flat_map (fun c => match c with Head _ => [] | Body b => b end) w.

(** What the caller reads from [wfile]: the status of the first line, the
    header fields in the order sent, and the bytes after the headers.  This
    is what the bytes say when each line written is one line on the wire
    ([framed], below); a message with a CR or LF of its own ends the status
    line early. *)
Definition response_of (h : handler) : response :=
  {| status := match written_lines (wfile h) with
               | StatusLine code message :: _ => Some (code, message)
               | _ => None
               end;
     header_fields :=
       flat_map (fun l => match l with
                          | HeaderLine k v => [(k, v)]
                          | _ => []
                          end) (written_lines (wfile h));
     body := written_body (wfile h) |}.

(** The text of a line of the header buffer, as [send_response_only],
    [send_header] and [end_headers] format it before encoding. *)
Definition line_text (l : line) : pystr :=
  match l with
  | StatusLine code message => status_text code message
  | HeaderLine keyword value => keyword ++ py ": " ++ value ++ CRLF
  | BlankLine => CRLF
  end.

(** The line is one line on the wire: no CR and no LF before the two
    characters that end it. *)
Definition one_line (l : line) : bool :=
  forallb (fun c => negb ((c =? 13) || (c =? 10)))
    (take (length (line_text l) - 2) (line_text l)).

(** Every line written to the caller is one line on the wire. *)
Definition framed (h : handler) : bool :=
  forallb one_line (written_lines (wfile h)).

(** The status code of the response, if one was sent. *)
Definition status_code (h : handler) : option N :=
  fst <$> status (response_of h).

(** ** Example worlds and requests *)

(** The body [{"a":1}] of the upstream in the examples. *)
Definition example_body : bytes := map chr_byte [123; 34; 97; 34; 58; 49; 125].

(** A world in which [http://example.test/data] answers [example_body] and
    every other host refuses the connection; [Request] rejects a url that
    has no scheme, quoting it in the message of the [ValueError]. *)
Definition example_world : world :=
  {| sys_version := "Python/3.11.2";
     date_time_string := "Wed, 04 Nov 2026 12:00:00 GMT";
     Request_raises := fun url =>
       if contains 58 url then None
       else Some (Exception_ "ValueError"
                    (py "unknown url type: '" ++ url ++ py "'"));
     urlopen_read := fun req =>
       if bool_decide (full_url req = py "http://example.test/data")
       then Return example_body
       else Raise (Exception_ "URLError"
                     (py "<urlopen error [Errno 111] Connection refused>")) |}.

(** The same world one second later. *)
Definition example_world_later : world :=
  {| sys_version := sys_version example_world;
     date_time_string := "Wed, 04 Nov 2026 12:00:01 GMT";
     Request_raises := Request_raises example_world;
     urlopen_read := urlopen_read example_world |}.

(** ** States and values the statements name *)

(** All characters of [s] are in the range of latin-1. *)
Definition latin1 (s : pystr) : bool := forallb (fun c => c <? 256) s.

(** The handler after [ls] were put into the header buffer. *)
Definition buffered (ls : list line) (h : handler) : handler :=
  {| command := command h; path := path h; headers := headers h;
     headers_buffer := headers_buffer h ++ ls; wfile := wfile h;
     stdout := stdout h; urlopen_calls := urlopen_calls h |}.

(** The two header lines [send_response] adds after the status line. *)
Definition stamp (W : world) : list line :=
  [HeaderLine (py "Server") (version_string W);
   HeaderLine (py "Date") (py (date_time_string W))].

(** The handler after the header buffer, ended by the blank line, was
    written out, followed by [body] if there is one. *)
Definition flushed (body : option bytes) (h : handler) : handler :=
  {| command := command h; path := path h; headers := headers h;
     headers_buffer := [];
     wfile := wfile h ++ Head (headers_buffer h ++ [BlankLine])
                :: match body with Some b => [Body b] | None => [] end;
     stdout := stdout h; urlopen_calls := urlopen_calls h |}.

(** The page [send_error] sends as the body. *)
Definition error_body (code : N) (message : pystr) : bytes :=
  encode_utf8_replace
    (error_message_format code (escape message)
       (escape (match responses code with
                | Some row => row.2
                | None => py "???"
                end))).

(** The lines of an error response. *)
Definition error_lines (W : world) (code : N) (message : pystr) : list line :=
  StatusLine code message :: stamp W
  ++ [HeaderLine (py "Connection") (py "close");
      HeaderLine (py "Content-Type") error_content_type;
      HeaderLine (py "Content-Length")
        (str_of_N (N.of_nat (length (error_body code message))))].

Definition printed (s : pystr) (h : handler) : handler :=
  {| command := command h; path := path h; headers := headers h;
     headers_buffer := headers_buffer h; wfile := wfile h;
     stdout := stdout h ++ [s]; urlopen_calls := urlopen_calls h |}.

Definition called (req : Request) (h : handler) : handler :=
  {| command := command h; path := path h; headers := headers h;
     headers_buffer := headers_buffer h; wfile := wfile h;
     stdout := stdout h; urlopen_calls := urlopen_calls h ++ [req] |}.

(** The request [do_GET] builds for a target. *)
Definition request_for (target_url : pystr) : Request :=
  add_header {| full_url := Request_full_url target_url; data := None;
                request_headers := ∅ |}
    (py "User-Agent") user_agent.

(** The three CORS headers, and the line that labels the body. *)
Definition cors_headers : list (pystr * pystr) :=
  [(py "Access-Control-Allow-Origin", py "*");
   (py "Access-Control-Allow-Methods", py "GET, POST, OPTIONS");
   (py "Access-Control-Allow-Headers", py "Content-Type")].

Definition json_header : pystr * pystr := (py "Content-Type", py "application/json").

Definition header_lines (hs : list (pystr * pystr)) : list line :=
  map (fun kv => HeaderLine kv.1 kv.2) hs.

(** The two header fields [send_response] adds. *)
Definition stamp_headers (W : world) : list (pystr * pystr) :=
  [(py "Server", version_string W); (py "Date", py (date_time_string W))].

Definition missing_url : pystr := py "Missing 'url' parameter".

(** The message of the 500 response for an exception. *)
Definition proxy_error (e : exception) : pystr := py "Proxy Error: " ++ exc_str e.

(** The handler when [do_GET] reaches its [except] clause with [e]. *)
Definition excepted (e : exception) (h : handler) : handler :=
  printed (py "Error: " ++ exc_str e) h.

(** The [except] clause of [do_GET]. *)
Definition except_clause (W : world) (e : exception) : M unit :=
  print (py "Error: " ++ exc_str e);;
  send_error W 500 (Some (proxy_error e)).

(** The handler when [do_GET] has announced the target. *)
Definition announced (target_url : pystr) (h : handler) : handler :=
  printed (py "Proxying request to: " ++ target_url) h.

(** The values [pairs] give to [name], in order. *)
Definition values_of (name : pystr) (pairs : list (pystr * pystr)) : list pystr :=
  flat_map (fun pair => if decide (pair.1 = name) then [pair.2] else []) pairs.

(** No field of the query has both a name that decodes to [url] and a value
    that is not blank. *)
Definition url_fields_blank (qs : pystr) : bool :=
  forallb (fun name_value =>
             match split1 61 name_value with
             | [name; value] =>
                 negb (bool_decide (unquote (replace 43 [32] name) = py "url"))
                 || bool_decide (value = [])
             | _ => true
             end)
          (split 38 qs).

(** The handler has written nothing yet and serves a request that is not a
    HEAD: the state in which [handle_one_request] calls [do_GET]. *)
Definition fresh (h : handler) : Prop :=
  headers_buffer h = [] ∧ wfile h = [] ∧ command h ≠ py "HEAD".

(** A second world: the same stamp, the same answer for
    [http://example.test/data], another upstream everywhere else. *)
Definition example_world_elsewhere : world :=
  {| sys_version := sys_version example_world;
     date_time_string := date_time_string example_world;
     Request_raises := fun _ => None;
     urlopen_read := fun _ => Return example_body |}.

(** A handler serving the same path on a server that has already printed
    and fetched, for a caller that sends headers. *)
Definition example_later_handler : handler :=
  {| command := py "GET";
     path := py "/proxy?url=http://example.test/data";
     headers := [(py "Origin", py "http://localhost:3000")];
     headers_buffer := []; wfile := [];
     stdout := [py "Proxying request to: http://example.test/data"];
     urlopen_calls := [request_for (py "http://example.test/data")] |}.

(** ** The run of [do_GET], case by case *)

(** The outcome of the two steps of the fetch for a target:
    [urllib.request.Request], then [urlopen] and [read]. *)
Definition fetch (W : world) (target_url : pystr) : result bytes :=
  match Request_raises W target_url with
  | Some e => Raise e
  | None => urlopen_read W (request_for target_url)
  end.

(** The handler when the fetch for a target is over: the target announced,
    and the request handed to [urlopen] unless [Request] rejected it. *)
Definition fetched (W : world) (target_url : pystr) (h : handler) : handler :=
  match Request_raises W target_url with
  | Some _ => announced target_url h
  | None => called (request_for target_url) (announced target_url h)
  end.

(** The handler after [send_error code message] on a handler that had
    nothing buffered. *)
Definition error_reply (W : world) (code : N) (message : pystr) (h : handler)
  : handler :=
  flushed (Some (error_body code message)) (buffered (error_lines W code message) h).

(** The lines of the 200 response. *)
Definition success_lines (W : world) : list line :=
  StatusLine 200 (py "OK") :: stamp W ++ header_lines (cors_headers ++ [json_header]).

(** Where [do_GET] ends when its [except] clause runs for [e]: with the 500
    reply, or with the exception of the status line that cannot be
    encoded. *)
Definition except_outcome (W : world) (e : exception) (h : handler)
  : result unit * handler :=
  match encode_latin1 (status_text 500 (proxy_error e)) with
  | Return _ => (Return tt, error_reply W 500 (proxy_error e) (excepted e h))
  | Raise e' => (Raise e', excepted e h)
  end.

(** Where a GET request ends, read off the branches of [do_GET]. *)
Definition GET_outcome (W : world) (path : pystr) (hs : list (pystr * pystr))
  : result unit * handler :=
  let h := new_handler (py "GET") path hs in
  if startswith path (py "/proxy?") then
    match parse_qs (drop 7 path) !! py "url" with
    | None => (Return tt, error_reply W 400 missing_url h)
    | Some [] =>
        except_outcome W (Exception_ "IndexError" (py "list index out of range")) h
    | Some (target_url :: _) =>
        match fetch W target_url with
        | Return data =>
            (Return tt,
             flushed (Some data) (buffered (success_lines W) (fetched W target_url h)))
        | Raise e => except_outcome W e (fetched W target_url h)
        end
    end
  else (Return tt, error_reply W 404 (py "Not Found") h).

(** The query text that escapes every byte of [b]: [%] and two upper-case
    hexadecimal digits for each. *)
Definition percent_encoded (b : bytes) : pystr :=
  flat_map (fun c => let n := Byte.to_N c in
                     [37; (if n / 16 <? 10 then 48 + n / 16 else 55 + n / 16);
                      (if n mod 16 <? 10 then 48 + n mod 16 else 55 + n mod 16)]) b.

(** The two hexadecimal digits [percent_encoded] writes for a byte. *)
Definition hex_pair (c : byte) : bytes :=
  [chr_byte (if Byte.to_N c / 16 <? 10 then 48 + Byte.to_N c / 16 else 55 + Byte.to_N c / 16);
   chr_byte (if Byte.to_N c mod 16 <? 10 then 48 + Byte.to_N c mod 16 else 55 + Byte.to_N c mod 16)].

(** A Unicode scalar value: a code point that is not a surrogate. *)
Definition scalar_value (c : N) : bool :=
  (c <? 1114112) && negb ((55296 <=? c) && (c <? 57344)).

(** A world in which [urlopen] finds no handler for the scheme of the
    target [x CR LF CR LF hello:] and says so, naming the scheme as it is. *)
Definition example_world_unknown_scheme : world :=
  {| sys_version := sys_version example_world;
     date_time_string := date_time_string example_world;
     Request_raises := fun _ => None;
     urlopen_read := fun _ =>
       Raise (Exception_ "URLError"
                (py "<urlopen error unknown url type: x" ++ [13; 10; 13; 10]
                 ++ py "hello>")) |}.

(** ** Facts about the library functions *)

Lemma latin1_app s t : latin1 (s ++ t) = latin1 s && latin1 t.
Proof. apply forallb_app. Qed.

Lemma py_latin1 s : latin1 (py s) = true.
Proof.
  unfold py. induction (list_ascii_of_string s) as [|a l IH]; [reflexivity|].
  cbn [map latin1 forallb]. fold (latin1 (map N_of_ascii l)). rewrite IH.
  rewrite andb_true_r. apply N.ltb_lt. apply N_ascii_bounded.
Qed.

Lemma span_of_latin1 s : latin1 s = true -> span_of (fun c => c <? 256) s = (s, []).
Proof.
  induction s as [|c s IH]; [reflexivity|].
  cbn [latin1 forallb span_of]. intros [Hc Hs]%andb_true_iff.
  rewrite Hc, (IH Hs). reflexivity.
Qed.

Lemma encode_latin1_Return s :
  latin1 s = true -> encode_latin1 s = Return (map chr_byte s).
Proof. intros H. unfold encode_latin1. rewrite (span_of_latin1 s H). reflexivity. Qed.

Lemma span_of_all p s : (span_of p s).2 = [] -> forallb p s = true.
Proof.
  induction s as [|c s IH]; [reflexivity|]. cbn [span_of forallb].
  destruct (p c) eqn:Hc; [|discriminate].
  destruct (span_of p s) as [run tail]. cbn in *. auto.
Qed.

(** The strict latin-1 encoder raises on every other string. *)
Lemma encode_latin1_Raise s :
  latin1 s = false -> exists e, encode_latin1 s = Raise e.
Proof.
  intros H. unfold encode_latin1.
  pose proof (span_of_all (fun c => c <? 256) s) as Hall.
  destruct (span_of (fun c => c <? 256) s) as [good rest]. cbn in Hall.
  destruct rest; [|eauto].
  unfold latin1 in H. rewrite Hall in H; [discriminate|reflexivity].
Qed.

(** ** The response methods, run *)

Lemma buffered_buffered ls ls' h :
  buffered ls' (buffered ls h) = buffered (ls ++ ls') h.
Proof. unfold buffered. cbn. by rewrite app_assoc. Qed.

Lemma buffer_append_run l h : buffer_append l h = (Return tt, buffered [l] h).
Proof. reflexivity. Qed.

Lemma bind_run {A B} (m : M A) (f : A -> M B) h a h' :
  m h = (Return a, h') -> (m ≫= f) h = f a h'.
Proof. intros H. unfold mbind, M_bind. by rewrite H. Qed.

Lemma bind_raise {A B} (m : M A) (f : A -> M B) h e h' :
  m h = (Raise e, h') -> (m ≫= f) h = (Raise e, h').
Proof. intros H. unfold mbind, M_bind. by rewrite H. Qed.

Lemma send_header_run keyword value h :
  latin1 keyword = true -> latin1 value = true ->
  send_header keyword value h = (Return tt, buffered [HeaderLine keyword value] h).
Proof.
  intros Hk Hv. unfold send_header.
  erewrite bind_run; [apply buffer_append_run|].
  unfold lift. rewrite encode_latin1_Return; [reflexivity|].
  rewrite !latin1_app, Hk, Hv. reflexivity.
Qed.

Lemma status_text_latin1 code message :
  latin1 (status_text code message) = latin1 message.
Proof.
  unfold status_text, protocol_version, str_of_N, CRLF.
  rewrite !latin1_app, !py_latin1. cbn. by rewrite andb_true_r.
Qed.

Lemma send_response_only_run code message h :
  latin1 message = true ->
  send_response_only code (Some message) h
  = (Return tt, buffered [StatusLine code message] h).
Proof.
  intros Hm. unfold send_response_only.
  erewrite bind_run; [apply buffer_append_run|].
  unfold lift. rewrite encode_latin1_Return; [reflexivity|].
  by rewrite status_text_latin1.
Qed.

Lemma send_response_only_raise code message h e :
  encode_latin1 (status_text code message) = Raise e ->
  send_response_only code (Some message) h = (Raise e, h).
Proof.
  intros He. unfold send_response_only.
  erewrite bind_raise; [reflexivity|]. unfold lift. by rewrite He.
Qed.

Lemma send_response_run W code message h :
  latin1 message = true ->
  send_response W code (Some message) h
  = (Return tt, buffered (StatusLine code message :: stamp W) h).
Proof.
  intros Hm. unfold send_response.
  erewrite bind_run; [|by apply send_response_only_run].
  erewrite bind_run;
    [|apply send_header_run; [apply py_latin1|unfold version_string;
                              by rewrite !latin1_app, !py_latin1]].
  rewrite send_header_run by apply py_latin1.
  by rewrite !buffered_buffered.
Qed.

Lemma send_response_raise W code message h e :
  encode_latin1 (status_text code message) = Raise e ->
  send_response W code (Some message) h = (Raise e, h).
Proof.
  intros He. unfold send_response.
  erewrite bind_raise; [reflexivity|]. by apply send_response_only_raise.
Qed.

Lemma end_headers_run h : end_headers h = (Return tt, flushed None h).
Proof. reflexivity. Qed.

Lemma error_body_cons code message :
  exists b bs, error_body code message = b :: bs.
Proof. eexists _, _. reflexivity. Qed.

(** [send_error] with one of the codes of this handler and a message in
    latin-1, for a request that is not a HEAD. *)
Lemma send_error_run W code message h :
  code ∈ [400; 404; 500] ->
  latin1 message = true ->
  command h ≠ py "HEAD" ->
  send_error W code (Some message) h
  = (Return tt,
     flushed (Some (error_body code message))
       (buffered (error_lines W code message) h)).
Proof.
  intros Hcode Hm Hcmd.
  assert (Hbody : send_error W code (Some message) h
                  = (send_response W code (Some message);;
                     send_header (py "Connection") (py "close");;
                     body ← (send_header (py "Content-Type") error_content_type;;
                             send_header (py "Content-Length")
                               (str_of_N (N.of_nat (length (error_body code message))));;
                             mret (Some (error_body code message)));
                     end_headers;;
                     self_command ← get command;
                     match body with
                     | Some ((_ :: _) as body) =>
                         if bool_decide (self_command ≠ py "HEAD")
                         then wfile_write (Body body) else mret tt
                     | _ => mret tt
                     end) h).
  { unfold send_error, error_body.
    repeat (apply elem_of_cons in Hcode as [->|Hcode]; [reflexivity|]).
    by apply elem_of_nil in Hcode. }
  rewrite Hbody. clear Hbody.
  erewrite bind_run; [|by apply send_response_run].
  erewrite bind_run; [|apply send_header_run; apply py_latin1].
  erewrite bind_run.
  2:{ erewrite bind_run; [|apply send_header_run; apply py_latin1].
      erewrite bind_run; [|apply send_header_run; apply py_latin1].
      reflexivity. }
  erewrite bind_run; [|apply end_headers_run].
  erewrite bind_run; [|reflexivity].
  rewrite !buffered_buffered. unfold error_lines.
  destruct (error_body_cons code message) as (b & bs & Hb).
  destruct (error_body code message) as [|b' bs']; [discriminate|].
  cbn [command flushed buffered]. rewrite bool_decide_true by done.
  unfold wfile_write, flushed, buffered. cbn.
  rewrite <- !app_assoc. reflexivity.
Qed.

(** ** [do_GET] and [do_OPTIONS], run *)

Ltac run_step :=
  erewrite bind_run;
  [| first [ apply send_header_run; apply py_latin1
           | apply send_response_run; apply py_latin1
           | apply end_headers_run
           | reflexivity ] ].

Lemma send_response_200_run W h :
  send_response W 200 None h
  = (Return tt, buffered (StatusLine 200 (py "OK") :: stamp W) h).
Proof. apply (send_response_run W 200 (py "OK")). apply py_latin1. Qed.

Lemma do_OPTIONS_run W h :
  do_OPTIONS W h
  = (Return tt,
     flushed None
       (buffered (StatusLine 200 (py "OK") :: stamp W ++ header_lines cors_headers) h)).
Proof.
  unfold do_OPTIONS.
  erewrite bind_run; [|apply send_response_200_run].
  do 3 run_step. rewrite end_headers_run, !buffered_buffered.
  reflexivity.
Qed.

Lemma do_GET_not_found W h :
  startswith (path h) (py "/proxy?") = false ->
  command h ≠ py "HEAD" ->
  do_GET W h
  = (Return tt,
     flushed (Some (error_body 404 (py "Not Found")))
       (buffered (error_lines W 404 (py "Not Found")) h)).
Proof.
  intros Hpath Hcmd. unfold do_GET, try_except.
  erewrite bind_run; [|reflexivity]. rewrite Hpath.
  rewrite send_error_run; [reflexivity|set_solver|apply py_latin1|done].
Qed.

Lemma do_GET_missing_url W h :
  startswith (path h) (py "/proxy?") = true ->
  parse_qs (drop 7 (path h)) !! py "url" = None ->
  command h ≠ py "HEAD" ->
  do_GET W h
  = (Return tt,
     flushed (Some (error_body 400 missing_url))
       (buffered (error_lines W 400 missing_url) h)).
Proof.
  intros Hpath Hurl Hcmd. unfold do_GET, try_except.
  erewrite bind_run; [|reflexivity]. rewrite Hpath. cbv zeta. rewrite Hurl.
  rewrite send_error_run; [reflexivity|set_solver|apply py_latin1|done].
Qed.

(** The [except] clause, for an exception whose text is in latin-1. *)
Lemma except_run W e h :
  latin1 (exc_str e) = true ->
  command h ≠ py "HEAD" ->
  except_clause W e h
  = (Return tt,
     flushed (Some (error_body 500 (proxy_error e)))
       (buffered (error_lines W 500 (proxy_error e)) (excepted e h))).
Proof.
  intros He Hcmd. unfold except_clause. run_step.
  rewrite send_error_run; [reflexivity|set_solver| |done].
  unfold proxy_error. by rewrite latin1_app, py_latin1.
Qed.

(** The [except] clause, for an exception whose text is not in latin-1:
    [send_error] raises while it encodes the status line, and nothing is
    sent. *)
Lemma except_raise W e h e' :
  encode_latin1 (status_text 500 (proxy_error e)) = Raise e' ->
  except_clause W e h = (Raise e', excepted e h).
Proof.
  intros He'. unfold except_clause. run_step. unfold send_error. cbn [responses N.eqb Pos.eqb].
  erewrite bind_raise; [reflexivity|]. by apply send_response_raise.
Qed.

Lemma proxy_error_latin1 e : latin1 (proxy_error e) = latin1 (exc_str e).
Proof. unfold proxy_error. by rewrite latin1_app, py_latin1. Qed.

(** The status line of the 500 response cannot be encoded exactly when the
    text of the exception is not in latin-1. *)
Lemma proxy_error_unencodable e :
  latin1 (exc_str e) = false ->
  exists e', encode_latin1 (status_text 500 (proxy_error e)) = Raise e'.
Proof.
  intros He. apply encode_latin1_Raise.
  by rewrite status_text_latin1, proxy_error_latin1.
Qed.

(** Up to the fetch: the [try] body of [do_GET] from the query on. *)
Lemma do_GET_try_fetch W h target_url rest (handle : exception -> M unit) :
  startswith (path h) (py "/proxy?") = true ->
  parse_qs (drop 7 (path h)) !! py "url" = Some (target_url :: rest) ->
  do_GET W h
  = try_except
      (req ← Request_ W target_url;
       let req := add_header req (py "User-Agent") user_agent in
       data ← urlopen W req;
       send_response W 200 None;;
       send_header (py "Access-Control-Allow-Origin") (py "*");;
       send_header (py "Access-Control-Allow-Methods") (py "GET, POST, OPTIONS");;
       send_header (py "Access-Control-Allow-Headers") (py "Content-Type");;
       send_header (py "Content-Type") (py "application/json");;
       end_headers;;
       wfile_write (Body data))
      (fun e =>
         print (py "Error: " ++ exc_str e);;
         send_error W 500 (Some (py "Proxy Error: " ++ exc_str e)))
      (announced target_url h).
Proof.
  intros Hpath Hurl. unfold do_GET, try_except.
  erewrite bind_run; [|reflexivity]. rewrite Hpath. cbv zeta. rewrite Hurl.
  reflexivity.
Qed.

Lemma do_GET_success W h target_url rest data :
  startswith (path h) (py "/proxy?") = true ->
  parse_qs (drop 7 (path h)) !! py "url" = Some (target_url :: rest) ->
  Request_raises W target_url = None ->
  urlopen_read W (request_for target_url) = Return data ->
  do_GET W h
  = (Return tt,
     flushed (Some data)
       (buffered (StatusLine 200 (py "OK") :: stamp W
                  ++ header_lines (cors_headers ++ [json_header]))
          (called (request_for target_url) (announced target_url h)))).
Proof.
  intros Hpath Hurl Hreq Hopen.
  rewrite (do_GET_try_fetch W h target_url rest (fun _ => mret tt) Hpath Hurl).
  unfold try_except, Request_. rewrite Hreq.
  erewrite bind_run; [|reflexivity]. cbv zeta.
  erewrite bind_run; [|unfold urlopen; fold (request_for target_url);
                       rewrite Hopen; reflexivity].
  erewrite bind_run; [|apply send_response_200_run].
  do 4 run_step. run_step.
  rewrite !buffered_buffered. unfold wfile_write, flushed. cbn.
  rewrite <- !app_assoc. reflexivity.
Qed.

Lemma do_GET_Request_raises W h target_url rest e :
  startswith (path h) (py "/proxy?") = true ->
  parse_qs (drop 7 (path h)) !! py "url" = Some (target_url :: rest) ->
  Request_raises W target_url = Some e ->
  do_GET W h = except_clause W e (announced target_url h).
Proof.
  intros Hpath Hurl Hreq.
  rewrite (do_GET_try_fetch W h target_url rest (fun _ => mret tt) Hpath Hurl).
  unfold try_except, Request_. rewrite Hreq.
  erewrite bind_raise; reflexivity.
Qed.

Lemma do_GET_urlopen_raises W h target_url rest e :
  startswith (path h) (py "/proxy?") = true ->
  parse_qs (drop 7 (path h)) !! py "url" = Some (target_url :: rest) ->
  Request_raises W target_url = None ->
  urlopen_read W (request_for target_url) = Raise e ->
  do_GET W h
  = except_clause W e (called (request_for target_url) (announced target_url h)).
Proof.
  intros Hpath Hurl Hreq Hopen.
  rewrite (do_GET_try_fetch W h target_url rest (fun _ => mret tt) Hpath Hurl).
  unfold try_except, Request_. rewrite Hreq.
  erewrite bind_run; [|reflexivity]. cbv zeta.
  erewrite bind_raise; [reflexivity|].
  unfold urlopen. fold (request_for target_url). rewrite Hopen. reflexivity.
Qed.

(** The response of a handler that had written nothing before. *)
Lemma response_of_flushed body ls h :
  headers_buffer h = [] -> wfile h = [] ->
  response_of (flushed body (buffered ls h))
  = {| status := match ls with
                 | StatusLine code message :: _ => Some (code, message)
                 | _ => None
                 end;
       header_fields :=
         flat_map (fun l => match l with
                            | HeaderLine k v => [(k, v)]
                            | _ => []
                            end) ls;
       body := default [] body |}.
Proof.
  intros Hbuf Hw. unfold response_of, flushed, buffered.
  cbn [wfile headers_buffer]. rewrite Hbuf, Hw. cbn [app].
  destruct body as [b|]; cbn [written_lines written_body flat_map default].
  - rewrite !app_nil_r. f_equal.
    + destruct ls as [|[]]; reflexivity.
    + rewrite flat_map_app. cbn. by rewrite app_nil_r.
  - rewrite !app_nil_r. f_equal.
    + destruct ls as [|[]]; reflexivity.
    + rewrite flat_map_app. cbn. by rewrite app_nil_r.
Qed.

(** ** The query parser *)

Lemma parse_qs_fold (pairs : list (pystr * pystr))
    (parsed_result : gmap pystr (list pystr)) (name : pystr) :
  fold_left (fun parsed_result (pair : pystr * pystr) =>
               match parsed_result !! pair.1 with
               | Some values => <[pair.1 := values ++ [pair.2]]> parsed_result
               | None => <[pair.1 := [pair.2]]> parsed_result
               end) pairs parsed_result !! name
  = match values_of name pairs with
    | [] => parsed_result !! name
    | values => Some (default [] (parsed_result !! name) ++ values)
    end.
Proof.
  revert parsed_result.
  induction pairs as [|[k v] pairs IH]; intros parsed_result; [reflexivity|].
  cbn [fold_left values_of flat_map fst snd]. rewrite IH. clear IH.
  fold (values_of name pairs).
  destruct (decide (k = name)) as [->|Hne].
  - destruct (parsed_result !! name) as [values|] eqn:Hlook;
      rewrite lookup_insert_eq; cbn;
      destruct (values_of name pairs); cbn; try reflexivity.
    by rewrite <- app_assoc.
  - cbn [app].
    destruct (parsed_result !! k); by rewrite lookup_insert_ne.
Qed.

(** [parse_qs(qs)[name]] is the non-empty list of the values the query
    gives to [name]; the key is absent when there is none. *)
Lemma parse_qs_lookup (qs name : pystr) :
  parse_qs qs !! name
  = match values_of name (parse_qsl qs) with
    | [] => None
    | values => Some values
    end.
Proof.
  unfold parse_qs. rewrite parse_qs_fold, lookup_empty. reflexivity.
Qed.

Lemma parse_qs_nonempty (qs name : pystr) : parse_qs qs !! name ≠ Some [].
Proof. rewrite parse_qs_lookup. by destruct (values_of name (parse_qsl qs)). Qed.

Lemma parse_field_blank name_value :
  match split1 61 name_value with
  | [name; value] =>
      negb (bool_decide (unquote (replace 43 [32] name) = py "url"))
      || bool_decide (value = [])
  | _ => true
  end = true ->
  values_of (py "url") (parse_field name_value) = [].
Proof.
  unfold parse_field. destruct name_value as [|c name_value]; [reflexivity|].
  destruct (split1 61 (c :: name_value)) as [|name [|value [|]]]; try reflexivity.
  destruct value as [|v value]; [reflexivity|].
  rewrite orb_true_iff, negb_true_iff, !bool_decide_eq_false.
  rewrite bool_decide_eq_true.
  intros [Hname|]; [|discriminate].
  cbn [values_of flat_map fst]. by rewrite decide_False.
Qed.

Lemma values_of_app (name : pystr) (pairs pairs' : list (pystr * pystr)) :
  values_of name (pairs ++ pairs') = values_of name pairs ++ values_of name pairs'.
Proof. apply flat_map_app. Qed.

(** A query whose [url] fields are all blank has no [url] key. *)
Lemma parse_qs_url_blank qs :
  url_fields_blank qs = true -> parse_qs qs !! py "url" = None.
Proof.
  intros Hblank. rewrite parse_qs_lookup.
  enough (values_of (py "url") (parse_qsl qs) = []) as -> by reflexivity.
  unfold parse_qsl, url_fields_blank in *.
  destruct qs as [|c qs]; [reflexivity|].
  induction (split 38 (c :: qs)) as [|name_value fields IH]; [reflexivity|].
  cbn [forallb flat_map] in *. apply andb_true_iff in Hblank as [Hfield Hrest].
  rewrite values_of_app, (parse_field_blank _ Hfield), (IH Hrest). reflexivity.
Qed.

(** ** Containment of byte strings *)

Lemma startswith_app {A} `{EqDecision A} (prefix rest : list A) :
  startswith (prefix ++ rest) prefix = true.
Proof.
  induction prefix as [|c prefix IH]; [by destruct rest|].
  cbn. by rewrite bool_decide_true, IH.
Qed.

Lemma occurs_in_app {A} `{EqDecision A} (needle before after : list A) :
  occurs_in needle (before ++ needle ++ after) = true.
Proof.
  induction before as [|c before IH].
  - cbn [app]. destruct (needle ++ after) eqn:E; cbn [occurs_in];
      rewrite <- E, startswith_app; reflexivity.
  - cbn [app occurs_in]. rewrite IH. apply orb_true_r.
Qed.

Lemma occurs_in_head {A} `{EqDecision A} (needle after : list A) :
  occurs_in needle (needle ++ after) = true.
Proof. apply (occurs_in_app needle [] after). Qed.

Lemma occurs_in_skip {A} `{EqDecision A} (needle before rest : list A) :
  occurs_in needle rest = true -> occurs_in needle (before ++ rest) = true.
Proof.
  intros H'. induction before as [|c before IH]; [exact H'|].
  cbn [app occurs_in]. rewrite IH. apply orb_true_r.
Qed.

(** The error page shows the message, escaped for HTML. *)
Lemma error_body_message code message :
  occurs_in (encode_utf8_replace (escape message)) (error_body code message) = true.
Proof.
  unfold error_body, error_message_format, encode_utf8_replace.
  repeat rewrite (flat_map_app utf8_encode_char).
  do 29 apply occurs_in_skip. apply occurs_in_head.
Qed.

Lemma GET_not_HEAD path hs : command (new_handler (py "GET") path hs) ≠ py "HEAD".
Proof. discriminate. Qed.

(** ** What the answer to a fetch depends on *)

Lemma fresh_new_handler path hs : fresh (new_handler (py "GET") path hs).
Proof. repeat split. discriminate. Qed.

Lemma stamp_eq W W' :
  sys_version W = sys_version W' ->
  date_time_string W = date_time_string W' ->
  stamp W = stamp W'.
Proof. intros Hv Hd. unfold stamp, version_string. by rewrite Hv, Hd. Qed.

Lemma except_clause_calls W e h :
  fresh h -> urlopen_calls (except_clause W e h).2 = urlopen_calls h.
Proof.
  intros (_ & _ & Hcmd).
  destruct (latin1 (exc_str e)) eqn:He.
  - by rewrite except_run.
  - destruct (proxy_error_unencodable e He) as [e' He'].
    by rewrite (except_raise W e h e' He').
Qed.

(** The outcome of the [except] clause and the response it sends depend on
    the exception and on the stamp of the world only. *)
Lemma except_clause_agree W W' e h h' :
  stamp W = stamp W' -> fresh h -> fresh h' ->
  (except_clause W e h).1 = (except_clause W' e h').1
  ∧ response_of (except_clause W e h).2 = response_of (except_clause W' e h').2.
Proof.
  intros Hstamp (Hbuf & Hw & Hcmd) (Hbuf' & Hw' & Hcmd').
  destruct (latin1 (exc_str e)) eqn:He.
  - rewrite !except_run by assumption. cbn [fst snd].
    rewrite !response_of_flushed by assumption.
    unfold error_lines. by rewrite Hstamp.
  - destruct (proxy_error_unencodable e He) as [e' He'].
    rewrite (except_raise W e h e' He'), (except_raise W' e h' e' He').
    cbn [fst snd]. split; [reflexivity|].
    unfold response_of, excepted, printed. cbn [wfile]. by rewrite Hw, Hw'.
Qed.

(** The requests [do_GET] hands to [urlopen] when the query names a target:
    one, unless [Request] rejects the target. *)
Lemma do_GET_fetch_calls W h target_url rest :
  fresh h ->
  startswith (path h) (py "/proxy?") = true ->
  parse_qs (drop 7 (path h)) !! py "url" = Some (target_url :: rest) ->
  urlopen_calls (do_GET W h).2
  = urlopen_calls h
    ++ match Request_raises W target_url with
       | Some _ => []
       | None => [request_for target_url]
       end.
Proof.
  intros Hfresh Hpath Hurl.
  destruct (Request_raises W target_url) as [e|] eqn:Hreq.
  - rewrite (do_GET_Request_raises W h target_url rest e) by assumption.
    rewrite (except_clause_calls W e (announced target_url h)) by exact Hfresh.
    cbn. by rewrite app_nil_r.
  - destruct (urlopen_read W (request_for target_url)) as [data|e] eqn:Hopen.
    + by rewrite (do_GET_success W h target_url rest data).
    + rewrite (do_GET_urlopen_raises W h target_url rest e) by assumption.
      by rewrite (except_clause_calls W e
                    (called (request_for target_url) (announced target_url h))).
Qed.

(** Two requests that name the same target, in worlds with the same stamp
    in which [urllib.request] treats that target alike, have the same
    outcome and get the same response. *)
Lemma do_GET_fetch_agree W W' h h' target_url rest rest' :
  fresh h -> fresh h' ->
  startswith (path h) (py "/proxy?") = true ->
  parse_qs (drop 7 (path h)) !! py "url" = Some (target_url :: rest) ->
  startswith (path h') (py "/proxy?") = true ->
  parse_qs (drop 7 (path h')) !! py "url" = Some (target_url :: rest') ->
  stamp W = stamp W' ->
  Request_raises W target_url = Request_raises W' target_url ->
  urlopen_read W (request_for target_url) = urlopen_read W' (request_for target_url) ->
  (do_GET W h).1 = (do_GET W' h').1
  ∧ response_of (do_GET W h).2 = response_of (do_GET W' h').2.
Proof.
  intros Hfresh Hfresh' Hpath Hurl Hpath' Hurl' Hstamp Hreq Hopen.
  destruct (Request_raises W target_url) as [e|] eqn:Hreq1; symmetry in Hreq.
  - rewrite (do_GET_Request_raises W h target_url rest e),
      (do_GET_Request_raises W' h' target_url rest' e) by assumption.
    apply (except_clause_agree W W' e); assumption.
  - destruct (urlopen_read W (request_for target_url)) as [data|e] eqn:Hopen1;
      symmetry in Hopen.
    + rewrite (do_GET_success W h target_url rest data),
        (do_GET_success W' h' target_url rest' data) by assumption.
      cbn [fst snd]. destruct Hfresh as (? & ? & _), Hfresh' as (? & ? & _).
      rewrite !response_of_flushed by assumption. by rewrite Hstamp.
    + rewrite (do_GET_urlopen_raises W h target_url rest e),
        (do_GET_urlopen_raises W' h' target_url rest' e) by assumption.
      apply (except_clause_agree W W' e); assumption.
Qed.

(** ** The url a request stores *)

Lemma rpartition_Some sep s before after :
  rpartition sep s = Some (before, after) -> s = before ++ sep :: after.
Proof.
  revert before. induction s as [|c s IH]; intros before; [discriminate|].
  cbn [rpartition]. destruct (rpartition sep s) as [[b a]|].
  - intros [= <- <-]. cbn. by rewrite <- (IH b).
  - destruct (decide (c = sep)) as [->|]; [|discriminate]. by intros [= <- <-].
Qed.

(** [Request] stores a url as it is given when it has no whitespace at its
    ends, is not enclosed in [<...>], has no [URL:] prefix and does not end
    with [#]. *)
Lemma Request_full_url_plain url :
  strip url = url ->
  take 1 url ≠ [60] ->
  take 4 url ≠ py "URL:" ->
  last url ≠ Some 35 ->
  Request_full_url url = url.
Proof.
  intros Hstrip Hlt Hprefix Hlast.
  assert (Hunwrap : unwrap url = url).
  { unfold unwrap. rewrite Hstrip.
    rewrite (bool_decide_eq_false_2 _ Hlt). cbn [andb].
    by rewrite (bool_decide_eq_false_2 _ Hprefix). }
  unfold Request_full_url, splittag. rewrite Hunwrap.
  destruct (rpartition 35 url) as [[base tag]|] eqn:Hpart; [|reflexivity].
  apply rpartition_Some in Hpart. destruct tag as [|c tag]; [|by rewrite Hpart].
  rewrite Hpart, last_snoc in Hlast. done.
Qed.

(** ** The contract of the handler *)

(** C1, as the code has it: when the fetch of the target succeeds, the
    response has status 200, the [Server] and [Date] headers that
    [send_response] adds, then exactly the three CORS headers and
    [Content-Type: application/json], and as body the bytes of the upstream
    body, whatever they are. *)
Theorem C1_success W path hs target_url rest data :
  startswith path (py "/proxy?") = true ->
  parse_qs (drop 7 path) !! py "url" = Some (target_url :: rest) ->
  Request_raises W target_url = None ->
  urlopen_read W (request_for target_url) = Return data ->
  (GET W path hs).1 = Return tt
  ∧ response_of (GET W path hs).2
    = {| status := Some (200, py "OK");
         header_fields := stamp_headers W ++ cors_headers ++ [json_header];
         body := data |}.
Proof.
  intros Hpath Hurl Hreq Hopen. unfold GET.
  rewrite (do_GET_success W _ target_url rest data) by assumption.
  cbn [fst snd]. by rewrite response_of_flushed.
Qed.

Lemma C1_success_witness :
  let path := py "/proxy?url=http://example.test/data" in
  let target_url := py "http://example.test/data" in
  startswith path (py "/proxy?") = true
  ∧ parse_qs (drop 7 path) !! py "url" = Some [target_url]
  ∧ Request_raises example_world target_url = None
  ∧ urlopen_read example_world (request_for target_url) = Return example_body
  ∧ (GET example_world path []).1 = Return tt
  ∧ response_of (GET example_world path []).2
    = {| status := Some (200, py "OK");
         header_fields := stamp_headers example_world ++ cors_headers ++ [json_header];
         body := example_body |}.
Proof.
  intros path target_url.
  assert (H1 : startswith path (py "/proxy?") = true) by reflexivity.
  assert (H2 : parse_qs (drop 7 path) !! py "url" = Some [target_url])
    by (vm_compute; reflexivity).
  assert (H3 : Request_raises example_world target_url = None) by reflexivity.
  assert (H4 : urlopen_read example_world (request_for target_url)
               = Return example_body) by reflexivity.
  repeat (split; [assumption|]).
  exact (C1_success example_world path [] target_url [] example_body H1 H2 H3 H4).
Defined.

(** C1, as stated, fails: the headers of a successful response are not
    exactly the four. *)
Lemma C1_headers_not_exactly_four :
  let path := py "/proxy?url=http://example.test/data" in
  urlopen_read example_world (request_for (py "http://example.test/data"))
  = Return example_body
  ∧ status_code (GET example_world path []).2 = Some 200
  ∧ header_fields (response_of (GET example_world path []).2)
    ≠ cors_headers ++ [json_header].
Proof.
  split; [reflexivity|]. split; [vm_compute; reflexivity|].
  vm_compute. discriminate.
Qed.

(** C2, where the code departs from it: the request
    [GET /proxy?url=%E2%82%AC] names the target U+20AC, [Request] rejects it
    with a [ValueError] whose text quotes it, and the [except] clause, when
    it sends the 500 reply, raises a [UnicodeEncodeError] for the status
    line: [do_GET] ends with that exception, and the caller is sent
    nothing. *)
Theorem C2_exception_propagates :
  let path := py "/proxy?url=%E2%82%AC" in
  startswith path (py "/proxy?") = true
  ∧ parse_qs (drop 7 path) !! py "url" = Some [[8364]]
  ∧ Request_raises example_world [8364]
    = Some (Exception_ "ValueError" (py "unknown url type: '" ++ [8364] ++ py "'"))
  ∧ (GET example_world path []).1
    = Raise (Exception_ "UnicodeEncodeError"
               (py "'latin-1' codec can't encode character '\u20ac' in position 45: ordinal not in range(256)"))
  ∧ status (response_of (GET example_world path []).2) = None
  ∧ wfile (GET example_world path []).2 = [].
Proof. repeat split; vm_compute; reflexivity. Qed.

(** C3: a GET request on [/proxy?...] whose decoded query has no [url] key
    is answered with status 400 and an error message, in the status line
    and in the body, and no outbound request is attempted. *)
Theorem C3_missing_url W path hs :
  startswith path (py "/proxy?") = true ->
  parse_qs (drop 7 path) !! py "url" = None ->
  (GET W path hs).1 = Return tt
  ∧ status (response_of (GET W path hs).2) = Some (400, missing_url)
  ∧ occurs_in (encode_utf8_replace missing_url)
      (body (response_of (GET W path hs).2)) = true
  ∧ urlopen_calls (GET W path hs).2 = [].
Proof.
  intros Hpath Hurl. unfold GET.
  rewrite do_GET_missing_url by (exact Hpath || exact Hurl || apply GET_not_HEAD).
  cbn [fst snd]. rewrite response_of_flushed by reflexivity.
  split; [reflexivity|]. split; [reflexivity|]. split; [|reflexivity].
  cbn [body default]. apply (error_body_message 400 missing_url).
Qed.

Lemma C3_missing_url_witness :
  startswith (py "/proxy?foo=bar") (py "/proxy?") = true
  ∧ parse_qs (drop 7 (py "/proxy?foo=bar")) !! py "url" = None
  ∧ (GET example_world (py "/proxy?foo=bar") []).1 = Return tt
  ∧ status (response_of (GET example_world (py "/proxy?foo=bar") []).2)
    = Some (400, missing_url)
  ∧ occurs_in (encode_utf8_replace missing_url)
      (body (response_of (GET example_world (py "/proxy?foo=bar") []).2)) = true
  ∧ urlopen_calls (GET example_world (py "/proxy?foo=bar") []).2 = [].
Proof.
  split; [reflexivity|]. split; [vm_compute; reflexivity|].
  apply (C3_missing_url example_world (py "/proxy?foo=bar") []).
  - reflexivity.
  - vm_compute; reflexivity.
Defined.

(** C4: a GET request whose path does not begin with [/proxy?] is answered
    with status 404, and no outbound request is made. *)
Theorem C4_not_found W path hs :
  startswith path (py "/proxy?") = false ->
  (GET W path hs).1 = Return tt
  ∧ status (response_of (GET W path hs).2) = Some (404, py "Not Found")
  ∧ urlopen_calls (GET W path hs).2 = [].
Proof.
  intros Hpath. unfold GET.
  rewrite do_GET_not_found by (exact Hpath || apply GET_not_HEAD).
  cbn [fst snd]. by rewrite response_of_flushed.
Qed.

Lemma C4_not_found_witness :
  startswith (py "/other") (py "/proxy?") = false
  ∧ (GET example_world (py "/other") []).1 = Return tt
  ∧ status (response_of (GET example_world (py "/other") []).2)
    = Some (404, py "Not Found")
  ∧ urlopen_calls (GET example_world (py "/other") []).2 = [].
Proof.
  split; [reflexivity|].
  apply (C4_not_found example_world (py "/other") []). reflexivity.
Defined.

(** C5, as the code has it: a GET request with path exactly [/proxy], with
    no query string, is answered with status 404: the path does not begin
    with [/proxy?]. *)
Theorem C5_bare_proxy_not_found W hs :
  (GET W (py "/proxy") hs).1 = Return tt
  ∧ status_code (GET W (py "/proxy") hs).2 = Some 404.
Proof.
  unfold GET, status_code.
  rewrite do_GET_not_found by (reflexivity || apply GET_not_HEAD).
  cbn [fst snd]. by rewrite response_of_flushed.
Qed.

(** C5, as stated, fails: the status of the response to [GET /proxy] is not
    400. *)
Lemma C5_bare_proxy_not_400 :
  status_code (GET example_world (py "/proxy") []).2 ≠ Some 400.
Proof. vm_compute. discriminate. Qed.

(** C6, as the code has it: every OPTIONS request, on any path, is answered
    with status 200, the [Server] and [Date] headers that [send_response]
    adds, then exactly the three CORS headers, an empty body, and no
    outbound request. *)
Theorem C6_options W path hs :
  (OPTIONS W path hs).1 = Return tt
  ∧ response_of (OPTIONS W path hs).2
    = {| status := Some (200, py "OK");
         header_fields := stamp_headers W ++ cors_headers;
         body := [] |}
  ∧ urlopen_calls (OPTIONS W path hs).2 = [].
Proof.
  unfold OPTIONS. rewrite do_OPTIONS_run. cbn [fst snd].
  by rewrite response_of_flushed.
Qed.

(** C6, as stated, fails: the headers of the answer to OPTIONS are not
    exactly the three. *)
Lemma C6_headers_not_exactly_three :
  status_code (OPTIONS example_world (py "/proxy") []).2 = Some 200
  ∧ header_fields (response_of (OPTIONS example_world (py "/proxy") []).2)
    ≠ cors_headers.
Proof. split; [vm_compute; reflexivity|]. vm_compute. discriminate. Qed.

(** C7, as the code has it: a GET request that reaches the fetch step hands
    exactly one request to [urlopen], whatever [urlopen] then answers.  The
    request has no data, so its method is GET; its url is the first decoded
    [url] value as [Request] stores it ([unwrap] applied, an empty fragment
    dropped); its only header is the literal [User-Agent], whatever the
    headers of the caller were. *)
Theorem C7_outbound_request W path hs target_url rest :
  startswith path (py "/proxy?") = true ->
  parse_qs (drop 7 path) !! py "url" = Some (target_url :: rest) ->
  Request_raises W target_url = None ->
  exists req,
    urlopen_calls (GET W path hs).2 = [req]
    ∧ full_url req = Request_full_url target_url
    ∧ data req = None
    ∧ get_method req = py "GET"
    ∧ request_headers req
      = {[ py "User-agent" :=
             py "Mozilla/5.0 (Windows NT 10.0; Win64; x64) AppleWebKit/537.36" ]}.
Proof.
  intros Hpath Hurl Hreq. exists (request_for target_url). unfold GET.
  rewrite (do_GET_fetch_calls W _ target_url rest)
    by (apply fresh_new_handler || assumption).
  rewrite Hreq. repeat split.
Qed.

Lemma C7_outbound_request_witness :
  let path := py "/proxy?url=%3CURL:http://example.test/data%3E" in
  let target_url := py "<URL:http://example.test/data>" in
  startswith path (py "/proxy?") = true
  ∧ parse_qs (drop 7 path) !! py "url" = Some [target_url]
  ∧ Request_raises example_world target_url = None
  ∧ Request_full_url target_url = py "http://example.test/data"
  ∧ exists req,
      urlopen_calls
        (GET example_world path [(py "Cookie", py "k=v"); (py "User-Agent", py "curl")]).2
      = [req]
      ∧ full_url req = Request_full_url target_url
      ∧ data req = None
      ∧ get_method req = py "GET"
      ∧ request_headers req
        = {[ py "User-agent" :=
               py "Mozilla/5.0 (Windows NT 10.0; Win64; x64) AppleWebKit/537.36" ]}.
Proof.
  intros path target_url.
  assert (H1 : startswith path (py "/proxy?") = true) by reflexivity.
  assert (H2 : parse_qs (drop 7 path) !! py "url" = Some [target_url])
    by (vm_compute; reflexivity).
  assert (H3 : Request_raises example_world target_url = None) by reflexivity.
  repeat (split; [assumption|]). split; [reflexivity|].
  exact (C7_outbound_request example_world path _ target_url [] H1 H2 H3).
Defined.

(** C7, as stated, fails: for [GET /proxy?url=%20http://example.test/data]
    the first decoded [url] value begins with a space, [Request] accepts it,
    and the url of the one request handed to [urlopen] is not that value:
    [Request] has taken the space off. *)
Lemma C7_target_not_as_given :
  let path := py "/proxy?url=%20http://example.test/data" in
  let target_url := py " http://example.test/data" in
  startswith path (py "/proxy?") = true
  ∧ parse_qs (drop 7 path) !! py "url" = Some [target_url]
  ∧ Request_raises example_world target_url = None
  ∧ urlopen_calls (GET example_world path []).2 = [request_for target_url]
  ∧ full_url (request_for target_url) = py "http://example.test/data"
  ∧ full_url (request_for target_url) ≠ target_url.
Proof.
  repeat split; try (vm_compute; reflexivity). vm_compute. discriminate.
Qed.

(** C8: when the query gives [url] two or more values, the fetch is for the
    first one.  The request handed to [urlopen] is the one for the first
    value (none only if [Request] rejects that value); when the fetch of
    the first value returns a body the response is the 200 response with
    that body, and when it raises the handler runs its [except] clause for
    that exception.  The later values have no effect: outcome, response and
    outbound request are those of any request whose first [url] value is
    the same, such as one that gives that value alone. *)
Theorem C8_first_url_value W path hs target_url value rest :
  startswith path (py "/proxy?") = true ->
  parse_qs (drop 7 path) !! py "url" = Some (target_url :: value :: rest) ->
  urlopen_calls (GET W path hs).2
  = match Request_raises W target_url with
    | Some _ => []
    | None => [request_for target_url]
    end
  ∧ (forall data,
        fetch W target_url = Return data ->
        (GET W path hs).1 = Return tt
        ∧ response_of (GET W path hs).2
          = {| status := Some (200, py "OK");
               header_fields := stamp_headers W ++ cors_headers ++ [json_header];
               body := data |})
  ∧ (forall e,
        fetch W target_url = Raise e ->
        stdout (GET W path hs).2
        = [py "Proxying request to: " ++ target_url; py "Error: " ++ exc_str e]
        ∧ (latin1 (exc_str e) = true ->
           (GET W path hs).1 = Return tt
           ∧ status_code (GET W path hs).2 = Some 500))
  ∧ forall path' hs' rest',
      startswith path' (py "/proxy?") = true ->
      parse_qs (drop 7 path') !! py "url" = Some (target_url :: rest') ->
      (GET W path' hs').1 = (GET W path hs).1
      ∧ response_of (GET W path' hs').2 = response_of (GET W path hs).2
      ∧ urlopen_calls (GET W path' hs').2 = urlopen_calls (GET W path hs).2.
Proof.
  intros Hpath Hurl.
  pose proof (fresh_new_handler path hs) as Hfresh.
  assert (Hcalls : urlopen_calls (GET W path hs).2
                   = match Request_raises W target_url with
                     | Some _ => []
                     | None => [request_for target_url]
                     end).
  { unfold GET.
    by rewrite (do_GET_fetch_calls W _ target_url (value :: rest))
      by (apply fresh_new_handler || assumption). }
  split; [exact Hcalls|]. split; [|split].
  - intros data Hfetch. unfold fetch in Hfetch. unfold GET.
    destruct (Request_raises W target_url) as [e|] eqn:Hreq; [discriminate|].
    rewrite (do_GET_success W _ target_url (value :: rest) data) by assumption.
    cbn [fst snd]. by rewrite response_of_flushed.
  - intros e Hfetch. unfold GET.
    assert (Hrun : exists h,
               fresh h
               ∧ stdout h = [py "Proxying request to: " ++ target_url]
               ∧ do_GET W (new_handler (py "GET") path hs) = except_clause W e h).
    { unfold fetch in Hfetch.
      destruct (Request_raises W target_url) as [e'|] eqn:Hreq.
      - injection Hfetch as ->. eexists. split; [|split; [|
          by apply (do_GET_Request_raises W _ target_url (value :: rest) e)]].
        + exact Hfresh.
        + reflexivity.
      - eexists. split; [|split; [|
          by apply (do_GET_urlopen_raises W _ target_url (value :: rest) e)]].
        + exact Hfresh.
        + reflexivity. }
    destruct Hrun as (h & Hh & Hout & ->). split.
    + destruct (latin1 (exc_str e)) eqn:He.
      * rewrite except_run by (exact He || apply Hh).
        cbn [snd flushed buffered excepted printed stdout]. by rewrite Hout.
      * destruct (proxy_error_unencodable e He) as [e' He'].
        rewrite (except_raise W e h e' He').
        cbn [snd excepted printed stdout]. by rewrite Hout.
    + intros He. rewrite except_run by (exact He || apply Hh).
      cbn [fst snd]. unfold status_code.
      destruct Hh as (Hbuf & Hw & _).
      by rewrite response_of_flushed.
  - intros path' hs' rest' Hpath' Hurl'.
    destruct (do_GET_fetch_agree W W (new_handler (py "GET") path' hs')
                (new_handler (py "GET") path hs) target_url rest' (value :: rest))
      as [Hres Hresp]; try (apply fresh_new_handler || assumption || reflexivity).
    split; [exact Hres|]. split; [exact Hresp|].
    rewrite Hcalls. unfold GET.
    by rewrite (do_GET_fetch_calls W _ target_url rest')
      by (apply fresh_new_handler || assumption).
Qed.

Lemma C8_first_url_value_witness :
  let path := py "/proxy?url=http://example.test/data&url=http://other.test/" in
  let target_url := py "http://example.test/data" in
  startswith path (py "/proxy?") = true
  ∧ parse_qs (drop 7 path) !! py "url" = Some [target_url; py "http://other.test/"]
  ∧ fetch example_world target_url = Return example_body
  ∧ urlopen_calls (GET example_world path []).2
    = match Request_raises example_world target_url with
      | Some _ => []
      | None => [request_for target_url]
      end
  ∧ (forall data,
        fetch example_world target_url = Return data ->
        (GET example_world path []).1 = Return tt
        ∧ response_of (GET example_world path []).2
          = {| status := Some (200, py "OK");
               header_fields :=
                 stamp_headers example_world ++ cors_headers ++ [json_header];
               body := data |})
  ∧ (forall e,
        fetch example_world target_url = Raise e ->
        stdout (GET example_world path []).2
        = [py "Proxying request to: " ++ target_url; py "Error: " ++ exc_str e]
        ∧ (latin1 (exc_str e) = true ->
           (GET example_world path []).1 = Return tt
           ∧ status_code (GET example_world path []).2 = Some 500))
  ∧ forall path' hs' rest',
      startswith path' (py "/proxy?") = true ->
      parse_qs (drop 7 path') !! py "url" = Some (target_url :: rest') ->
      (GET example_world path' hs').1 = (GET example_world path []).1
      ∧ response_of (GET example_world path' hs').2
        = response_of (GET example_world path []).2
      ∧ urlopen_calls (GET example_world path' hs').2
        = urlopen_calls (GET example_world path []).2.
Proof.
  intros path target_url.
  assert (H1 : startswith path (py "/proxy?") = true) by reflexivity.
  assert (H2 : parse_qs (drop 7 path) !! py "url"
               = Some [target_url; py "http://other.test/"])
    by (vm_compute; reflexivity).
  repeat (split; [assumption|]). split; [reflexivity|].
  exact (C8_first_url_value example_world path [] target_url _ [] H1 H2).
Defined.

(** C9, as the code has it: two GET requests with the same path get the
    same outcome and the same response (status, headers, body) when the
    upstream treats the resulting target alike both times and the stamp of
    [send_response], interpreter version and clock reading, is the same.
    Nothing else enters: the handlers may differ in the caller's headers and
    in what earlier requests printed or fetched. *)
Theorem C9_same_request_same_response W W' h h' :
  fresh h -> fresh h' ->
  path h = path h' ->
  sys_version W = sys_version W' ->
  date_time_string W = date_time_string W' ->
  (forall target_url rest,
      parse_qs (drop 7 (path h)) !! py "url" = Some (target_url :: rest) ->
      Request_raises W target_url = Request_raises W' target_url
      ∧ urlopen_read W (request_for target_url)
        = urlopen_read W' (request_for target_url)) ->
  (do_GET W h).1 = (do_GET W' h').1
  ∧ response_of (do_GET W h).2 = response_of (do_GET W' h').2.
Proof.
  intros Hfresh Hfresh' Hpath Hversion Hdate Hupstream.
  pose proof (stamp_eq W W' Hversion Hdate) as Hstamp.
  pose proof Hfresh as (Hbuf & Hw & Hcmd).
  pose proof Hfresh' as (Hbuf' & Hw' & Hcmd').
  destruct (startswith (path h) (py "/proxy?")) eqn:Hprefix.
  - destruct (parse_qs (drop 7 (path h)) !! py "url") as [[|target_url rest]|] eqn:Hurl.
    + by apply parse_qs_nonempty in Hurl.
    + destruct (Hupstream target_url rest eq_refl) as [Hreq Hopen].
      apply (do_GET_fetch_agree W W' h h' target_url rest rest);
        try assumption; by rewrite <- Hpath.
    + rewrite (do_GET_missing_url W h), (do_GET_missing_url W' h')
        by (assumption || by rewrite <- Hpath).
      cbn [fst snd]. rewrite !response_of_flushed by assumption.
      unfold error_lines. by rewrite Hstamp.
  - rewrite (do_GET_not_found W h), (do_GET_not_found W' h')
      by (assumption || by rewrite <- Hpath).
    cbn [fst snd]. rewrite !response_of_flushed by assumption.
    unfold error_lines. by rewrite Hstamp.
Qed.

Lemma C9_same_request_same_response_witness :
  let h := new_handler (py "GET") (py "/proxy?url=http://example.test/data") [] in
  let h' := example_later_handler in
  let W := example_world in
  let W' := example_world_elsewhere in
  fresh h ∧ fresh h' ∧ path h = path h'
  ∧ sys_version W = sys_version W'
  ∧ date_time_string W = date_time_string W'
  ∧ (forall target_url rest,
        parse_qs (drop 7 (path h)) !! py "url" = Some (target_url :: rest) ->
        Request_raises W target_url = Request_raises W' target_url
        ∧ urlopen_read W (request_for target_url)
          = urlopen_read W' (request_for target_url))
  ∧ (do_GET W h).1 = (do_GET W' h').1
  ∧ response_of (do_GET W h).2 = response_of (do_GET W' h').2.
Proof.
  intros h h' W W'.
  assert (H1 : fresh h) by apply fresh_new_handler.
  assert (H2 : fresh h') by (repeat split; discriminate).
  assert (H3 : path h = path h') by reflexivity.
  assert (H4 : sys_version W = sys_version W') by reflexivity.
  assert (H5 : date_time_string W = date_time_string W') by reflexivity.
  assert (H6 : forall target_url rest,
             parse_qs (drop 7 (path h)) !! py "url" = Some (target_url :: rest) ->
             Request_raises W target_url = Request_raises W' target_url
             ∧ urlopen_read W (request_for target_url)
               = urlopen_read W' (request_for target_url)).
  { intros target_url rest Hurl. vm_compute in Hurl.
    injection Hurl as <- <-. split; reflexivity. }
  repeat (split; [assumption|]).
  exact (C9_same_request_same_response W W' h h' H1 H2 H3 H4 H5 H6).
Defined.

(** C9, as stated, fails: the same path and the same upstream response, one
    second apart, give two responses whose headers differ. *)
Lemma C9_date_header_differs :
  let path := py "/proxy?url=http://example.test/data" in
  let target_url := py "http://example.test/data" in
  urlopen_read example_world (request_for target_url) = Return example_body
  ∧ urlopen_read example_world_later (request_for target_url) = Return example_body
  ∧ header_fields (response_of (GET example_world path []).2)
    ≠ header_fields (response_of (GET example_world_later path []).2).
Proof.
  split; [reflexivity|]. split; [reflexivity|]. vm_compute. discriminate.
Qed.

(** C10: a query in which every field named [url] has a blank value has no
    [url] key after parsing, and the request is answered exactly like one
    without any query field: status 400, no outbound request. *)
Theorem C10_blank_url W qs hs :
  url_fields_blank qs = true ->
  parse_qs qs !! py "url" = None
  ∧ (GET W (py "/proxy?" ++ qs) hs).1 = Return tt
  ∧ status (response_of (GET W (py "/proxy?" ++ qs) hs).2) = Some (400, missing_url)
  ∧ response_of (GET W (py "/proxy?" ++ qs) hs).2
    = response_of (GET W (py "/proxy?") hs).2
  ∧ urlopen_calls (GET W (py "/proxy?" ++ qs) hs).2 = [].
Proof.
  intros Hblank. pose proof (parse_qs_url_blank qs Hblank) as Hurl.
  split; [exact Hurl|]. unfold GET.
  rewrite (do_GET_missing_url W (new_handler (py "GET") (py "/proxy?" ++ qs) hs))
    by (apply startswith_app || exact Hurl || apply GET_not_HEAD).
  rewrite (do_GET_missing_url W (new_handler (py "GET") (py "/proxy?") hs))
    by (reflexivity || apply GET_not_HEAD).
  cbn [fst snd]. by rewrite !response_of_flushed.
Qed.

Lemma C10_blank_url_witness :
  url_fields_blank (py "url=&foo=bar") = true
  ∧ parse_qs (py "url=&foo=bar") !! py "url" = None
  ∧ (GET example_world (py "/proxy?" ++ py "url=&foo=bar") []).1 = Return tt
  ∧ status (response_of (GET example_world (py "/proxy?" ++ py "url=&foo=bar") []).2)
    = Some (400, missing_url)
  ∧ response_of (GET example_world (py "/proxy?" ++ py "url=&foo=bar") []).2
    = response_of (GET example_world (py "/proxy?") []).2
  ∧ urlopen_calls (GET example_world (py "/proxy?" ++ py "url=&foo=bar") []).2 = [].
Proof.
  split; [vm_compute; reflexivity|].
  apply (C10_blank_url example_world (py "url=&foo=bar") []).
  vm_compute; reflexivity.
Defined.

(** The two paths of the claim, run. *)
Example GET_blank_url :
  status_code (GET example_world (py "/proxy?url=") []).2 = Some 400
  ∧ urlopen_calls (GET example_world (py "/proxy?url=") []).2 = []
  ∧ status_code (GET example_world (py "/proxy?url=&foo=bar") []).2 = Some 400
  ∧ urlopen_calls (GET example_world (py "/proxy?url=&foo=bar") []).2 = [].
Proof. repeat split; vm_compute; reflexivity. Qed.

(** ** The run of [do_GET], as one function *)

Lemma encode_latin1_Return_inv s b : encode_latin1 s = Return b -> latin1 s = true.
Proof.
  intros Hs. destruct (latin1 s) eqn:Hl; [reflexivity|].
  destruct (encode_latin1_Raise s Hl) as [e He]. congruence.
Qed.

Lemma encode_latin1_class s e :
  encode_latin1 s = Raise e -> exc_class e = "UnicodeEncodeError"%string.
Proof.
  unfold encode_latin1. destruct (span_of _ s) as [good rest].
  destruct rest; [discriminate|]. by intros [= <-].
Qed.

Lemma except_clause_outcome W e h :
  fresh h -> except_clause W e h = except_outcome W e h.
Proof.
  intros (Hbuf & Hw & Hcmd). unfold except_outcome.
  destruct (encode_latin1 (status_text 500 (proxy_error e))) as [b|e'] eqn:He.
  - apply encode_latin1_Return_inv in He.
    rewrite status_text_latin1, proxy_error_latin1 in He.
    by rewrite except_run.
  - by apply except_raise.
Qed.

(** [do_GET] on the handler of a GET request ends as [GET_outcome] says. *)
Lemma GET_run W p hs : GET W p hs = GET_outcome W p hs.
Proof.
  unfold GET, GET_outcome.
  pose proof (fresh_new_handler p hs) as Hfresh.
  destruct (startswith p (py "/proxy?")) eqn:Hprefix.
  - destruct (parse_qs (drop 7 p) !! py "url") as [[|target_url rest]|] eqn:Hurl.
    + by apply parse_qs_nonempty in Hurl.
    + unfold fetch, fetched.
      destruct (Request_raises W target_url) as [e|] eqn:Hreq.
      * rewrite (do_GET_Request_raises W _ target_url rest e) by assumption.
        by apply except_clause_outcome.
      * destruct (urlopen_read W (request_for target_url)) as [data|e] eqn:Hopen.
        -- by rewrite (do_GET_success W _ target_url rest data).
        -- rewrite (do_GET_urlopen_raises W _ target_url rest e) by assumption.
           by apply except_clause_outcome.
    + apply do_GET_missing_url; try assumption. apply Hfresh.
  - apply do_GET_not_found; [assumption|apply Hfresh].
Qed.

Lemma fresh_fetched W target_url h : fresh h -> fresh (fetched W target_url h).
Proof. intros Hf. unfold fetched. by destruct (Request_raises W target_url). Qed.

Lemma response_of_error_reply W code message h :
  fresh h ->
  response_of (error_reply W code message h)
  = {| status := Some (code, message);
       header_fields :=
         stamp_headers W
         ++ [(py "Connection", py "close");
             (py "Content-Type", py "text/html;charset=utf-8");
             (py "Content-Length",
              str_of_N (N.of_nat (length (error_body code message))))];
       body := error_body code message |}.
Proof.
  intros (Hbuf & Hw & _). unfold error_reply.
  by rewrite response_of_flushed.
Qed.

Lemma response_of_success W data h :
  fresh h ->
  response_of (flushed (Some data) (buffered (success_lines W) h))
  = {| status := Some (200, py "OK");
       header_fields := stamp_headers W ++ cors_headers ++ [json_header];
       body := data |}.
Proof. intros (Hbuf & Hw & _). by rewrite response_of_flushed. Qed.

Lemma urlopen_calls_fetched W target_url p hs :
  urlopen_calls (fetched W target_url (new_handler (py "GET") p hs))
  = match Request_raises W target_url with
    | Some _ => []
    | None => [request_for target_url]
    end.
Proof. unfold fetched. by destruct (Request_raises W target_url). Qed.

Lemma stdout_fetched W target_url p hs :
  stdout (fetched W target_url (new_handler (py "GET") p hs))
  = [py "Proxying request to: " ++ target_url].
Proof. unfold fetched. by destruct (Request_raises W target_url). Qed.

(** ** Further properties of the handler *)

(** X1: a GET request ends in one of two ways.  Either [do_GET] returns, and
    then a complete response was written whose status is 200, 400, 404 or
    500; or it raises, and then the exception is the [UnicodeEncodeError] of
    the status line and nothing was written to the caller. *)
Theorem X1_GET_outcomes W p hs :
  ((GET W p hs).1 = Return tt
   ∧ (exists code, status_code (GET W p hs).2 = Some code
                   ∧ code ∈ [200; 400; 404; 500])
   ∧ headers_buffer (GET W p hs).2 = [])
  ∨ (exists e, (GET W p hs).1 = Raise e
               ∧ exc_class e = "UnicodeEncodeError"%string
               ∧ wfile (GET W p hs).2 = []
               ∧ headers_buffer (GET W p hs).2 = []).
Proof.
  rewrite GET_run. unfold GET_outcome, status_code.
  pose proof (fresh_new_handler p hs) as Hfresh.
  assert (Hexcept : forall e h, fresh h ->
    ((except_outcome W e h).1 = Return tt
     ∧ (exists code, fst <$> status (response_of (except_outcome W e h).2) = Some code
                     ∧ code ∈ [200; 400; 404; 500])
     ∧ headers_buffer (except_outcome W e h).2 = [])
    ∨ (exists e', (except_outcome W e h).1 = Raise e'
                  ∧ exc_class e' = "UnicodeEncodeError"%string
                  ∧ wfile (except_outcome W e h).2 = []
                  ∧ headers_buffer (except_outcome W e h).2 = [])).
  { intros e h Hh. unfold except_outcome.
    destruct (encode_latin1 (status_text 500 (proxy_error e))) as [b|e'] eqn:He.
    - left. cbn [fst snd]. rewrite response_of_error_reply by exact Hh.
      repeat split. exists 500. split; [reflexivity|set_solver].
    - right. exists e'. cbn [fst snd]. destruct Hh as (Hbuf & Hw & _).
      repeat split; [by apply encode_latin1_class in He|exact Hw|exact Hbuf]. }
  destruct (startswith p (py "/proxy?")).
  - destruct (parse_qs (drop 7 p) !! py "url") as [[|target_url rest]|].
    + by apply Hexcept.
    + destruct (fetch W target_url) as [data|e].
      * left. cbn [fst snd].
        rewrite response_of_success by by apply fresh_fetched.
        repeat split. exists 200. split; [reflexivity|set_solver].
      * apply Hexcept. by apply fresh_fetched.
    + left. cbn [fst snd]. rewrite response_of_error_reply by exact Hfresh.
      repeat split. exists 400. split; [reflexivity|set_solver].
  - left. cbn [fst snd]. rewrite response_of_error_reply by exact Hfresh.
    repeat split. exists 404. split; [reflexivity|set_solver].
Qed.

(** X2: a GET request hands at most one request to [urlopen], and never one
    that differs from [request_for] of some target: no retry, no data, no
    header besides the User-Agent. *)
Theorem X2_at_most_one_fetch W p hs :
  urlopen_calls (GET W p hs).2 = []
  ∨ exists target_url, urlopen_calls (GET W p hs).2 = [request_for target_url].
Proof.
  rewrite GET_run. unfold GET_outcome.
  assert (Hexcept : forall e h, urlopen_calls (except_outcome W e h).2 = urlopen_calls h).
  { intros e h. unfold except_outcome.
    by destruct (encode_latin1 (status_text 500 (proxy_error e))). }
  destruct (startswith p (py "/proxy?")); [|by left].
  destruct (parse_qs (drop 7 p) !! py "url") as [[|target_url rest]|]; [| |by left].
  - left. by rewrite Hexcept.
  - assert (Hcalls : urlopen_calls
                       (match fetch W target_url with
                        | Return data0 =>
                            (Return tt,
                             flushed (Some data0)
                               (buffered (success_lines W)
                                  (fetched W target_url (new_handler (py "GET") p hs))))
                        | Raise e =>
                            except_outcome W e
                              (fetched W target_url (new_handler (py "GET") p hs))
                        end).2
                     = urlopen_calls (fetched W target_url (new_handler (py "GET") p hs))).
    { destruct (fetch W target_url); [reflexivity|apply Hexcept]. }
    rewrite Hcalls, urlopen_calls_fetched.
    destruct (Request_raises W target_url); [by left|right; eauto].
Qed.

(** X3: a GET request that [do_GET] answers with another status than 200,
    each line of the reply being one line on the wire, gets exactly the
    headers [Server], [Date], [Connection: close],
    [Content-Type: text/html;charset=utf-8] and a [Content-Length] that is
    the number of bytes of the body: no CORS header goes with an error. *)
Theorem X3_error_headers W p hs :
  (GET W p hs).1 = Return tt ->
  status_code (GET W p hs).2 ≠ Some 200 ->
  framed (GET W p hs).2 = true ->
  header_fields (response_of (GET W p hs).2)
  = stamp_headers W
    ++ [(py "Connection", py "close");
        (py "Content-Type", py "text/html;charset=utf-8");
        (py "Content-Length",
         str_of_N (N.of_nat (length (body (response_of (GET W p hs).2)))))].
Proof.
  rewrite GET_run. unfold GET_outcome, status_code.
  pose proof (fresh_new_handler p hs) as Hfresh.
  assert (Hexcept : forall e h, fresh h ->
    (except_outcome W e h).1 = Return tt ->
    header_fields (response_of (except_outcome W e h).2)
    = stamp_headers W
      ++ [(py "Connection", py "close");
          (py "Content-Type", py "text/html;charset=utf-8");
          (py "Content-Length",
           str_of_N (N.of_nat (length (body (response_of (except_outcome W e h).2)))))]).
  { intros e h Hh. unfold except_outcome.
    destruct (encode_latin1 (status_text 500 (proxy_error e))); [|discriminate].
    intros _. cbn [fst snd]. by rewrite response_of_error_reply. }
  destruct (startswith p (py "/proxy?")).
  - destruct (parse_qs (drop 7 p) !! py "url") as [[|target_url rest]|].
    + intros Hret _ _. by apply Hexcept.
    + destruct (fetch W target_url) as [data|e].
      * intros _. cbn [fst snd].
        rewrite response_of_success by by apply fresh_fetched. by intros [].
      * intros Hret _ _. apply Hexcept; [by apply fresh_fetched|exact Hret].
    + intros _ _ _. cbn [fst snd]. by rewrite response_of_error_reply.
  - intros _ _ _. cbn [fst snd]. by rewrite response_of_error_reply.
Qed.

Lemma X3_error_headers_witness :
  (GET example_world (py "/proxy?url=http://127.0.0.1:1") []).1 = Return tt
  ∧ status_code (GET example_world (py "/proxy?url=http://127.0.0.1:1") []).2 ≠ Some 200
  ∧ framed (GET example_world (py "/proxy?url=http://127.0.0.1:1") []).2 = true
  ∧ header_fields (response_of (GET example_world (py "/proxy?url=http://127.0.0.1:1") []).2)
    = stamp_headers example_world
      ++ [(py "Connection", py "close");
          (py "Content-Type", py "text/html;charset=utf-8");
          (py "Content-Length",
           str_of_N (N.of_nat (length (body (response_of
             (GET example_world (py "/proxy?url=http://127.0.0.1:1") []).2)))))].
Proof.
  assert (H1 : (GET example_world (py "/proxy?url=http://127.0.0.1:1") []).1 = Return tt)
    by (vm_compute; reflexivity).
  assert (H2 : status_code (GET example_world (py "/proxy?url=http://127.0.0.1:1") []).2
               ≠ Some 200) by (vm_compute; discriminate).
  assert (H3 : framed (GET example_world (py "/proxy?url=http://127.0.0.1:1") []).2 = true)
    by (vm_compute; reflexivity).
  split; [exact H1|]. split; [exact H2|]. split; [exact H3|].
  exact (X3_error_headers example_world (py "/proxy?url=http://127.0.0.1:1") [] H1 H2 H3).
Defined.

(** X4: a GET request that names a target prints the line
    [Proxying request to: <target>] before the fetch, and after a failed
    fetch the line [Error: <text>] as well: one line for a success, two for
    a failure, also when the 500 reply cannot be sent. *)
Theorem X4_printed_lines W p hs target_url rest :
  startswith p (py "/proxy?") = true ->
  parse_qs (drop 7 p) !! py "url" = Some (target_url :: rest) ->
  stdout (GET W p hs).2
  = (py "Proxying request to: " ++ target_url)
    :: match fetch W target_url with
       | Return _ => []
       | Raise e => [py "Error: " ++ exc_str e]
       end.
Proof.
  intros Hprefix Hurl. rewrite GET_run. unfold GET_outcome.
  rewrite Hprefix, Hurl.
  destruct (fetch W target_url) as [data|e].
  - cbn [snd flushed buffered stdout]. apply stdout_fetched.
  - unfold except_outcome.
    destruct (encode_latin1 (status_text 500 (proxy_error e)));
      cbn [snd error_reply flushed buffered excepted printed stdout];
      by rewrite stdout_fetched.
Qed.

Lemma X4_printed_lines_witness :
  let p := py "/proxy?url=http://127.0.0.1:1" in
  let target_url := py "http://127.0.0.1:1" in
  startswith p (py "/proxy?") = true
  ∧ parse_qs (drop 7 p) !! py "url" = Some [target_url]
  ∧ stdout (GET example_world p []).2
    = (py "Proxying request to: " ++ target_url)
      :: match fetch example_world target_url with
         | Return _ => []
         | Raise e => [py "Error: " ++ exc_str e]
         end.
Proof.
  intros p target_url.
  assert (H1 : startswith p (py "/proxy?") = true) by reflexivity.
  assert (H2 : parse_qs (drop 7 p) !! py "url" = Some [target_url])
    by (vm_compute; reflexivity).
  split; [exact H1|]. split; [exact H2|].
  exact (X4_printed_lines example_world p [] target_url [] H1 H2).
Defined.

(** X10: when the fetch fails with an exception whose text has a character
    above U+00FF, [send_error] cannot encode the status line: [do_GET] ends
    with a [UnicodeEncodeError] and the caller is sent nothing, neither a
    status line nor a body. *)
Theorem X10_unencodable_failure W p hs target_url rest e :
  startswith p (py "/proxy?") = true ->
  parse_qs (drop 7 p) !! py "url" = Some (target_url :: rest) ->
  fetch W target_url = Raise e ->
  latin1 (exc_str e) = false ->
  (exists e', (GET W p hs).1 = Raise e'
              ∧ exc_class e' = "UnicodeEncodeError"%string)
  ∧ wfile (GET W p hs).2 = [].
Proof.
  intros Hprefix Hurl Hfetch He. rewrite GET_run. unfold GET_outcome.
  rewrite Hprefix, Hurl, Hfetch. unfold except_outcome.
  destruct (proxy_error_unencodable e He) as [e' He']. rewrite He'.
  cbn [fst snd]. split.
  - exists e'. split; [reflexivity|by apply encode_latin1_class in He'].
  - unfold fetched. by destruct (Request_raises W target_url).
Qed.

Lemma X10_unencodable_failure_witness :
  let p := py "/proxy?url=%E2%82%AC" in
  let e := Exception_ "ValueError" (py "unknown url type: '" ++ [8364] ++ py "'") in
  startswith p (py "/proxy?") = true
  ∧ parse_qs (drop 7 p) !! py "url" = Some [[8364]]
  ∧ fetch example_world [8364] = Raise e
  ∧ latin1 (exc_str e) = false
  ∧ (exists e', (GET example_world p []).1 = Raise e'
                ∧ exc_class e' = "UnicodeEncodeError"%string)
  ∧ wfile (GET example_world p []).2 = [].
Proof.
  intros p e.
  assert (H1 : startswith p (py "/proxy?") = true) by reflexivity.
  assert (H2 : parse_qs (drop 7 p) !! py "url" = Some [[8364]])
    by (vm_compute; reflexivity).
  assert (H3 : fetch example_world [8364] = Raise e) by reflexivity.
  assert (H4 : latin1 (exc_str e) = false) by reflexivity.
  repeat (split; [assumption|]).
  exact (X10_unencodable_failure example_world p [] [8364] [] e H1 H2 H3 H4).
Defined.

Lemma replace_not_elem (old c : N) new s :
  c ∉ new -> c ≠ old -> (c ∈ replace old new s <-> c ∈ s).
Proof.
  intros Hnew Hne. unfold replace.
  induction s as [|x s IH]; [reflexivity|].
  cbn [flat_map]. rewrite elem_of_app, elem_of_cons, IH.
  destruct (decide (x = old)) as [->|Hx].
  - split; [intros [?|?]; [done|by right]|intros [?|?]; [done|by right]].
  - rewrite list_elem_of_singleton. reflexivity.
Qed.

Lemma replace_elem_old (old : N) new s : old ∉ new -> old ∉ replace old new s.
Proof.
  intros Hnew. unfold replace.
  induction s as [|x s IH]; [apply not_elem_of_nil|].
  cbn [flat_map]. rewrite elem_of_app. intros [Hx|Hs]; [|by apply IH].
  destruct (decide (x = old)) as [->|Hne]; [done|].
  apply list_elem_of_singleton in Hx. congruence.
Qed.

Lemma replace_absent (old : N) new s : old ∉ s -> replace old new s = s.
Proof.
  unfold replace. induction s as [|x s IH]; [reflexivity|].
  rewrite not_elem_of_cons. intros [Hne Hs]. cbn [flat_map].
  rewrite decide_False by congruence. cbn. by rewrite IH.
Qed.

Ltac not_in_literal :=
  let H := fresh in
  intros H; vm_compute in H;
  repeat (apply elem_of_cons in H; destruct H as [H|H]; [discriminate H|]);
  by apply elem_of_nil in H.

(** [html.escape] leaves no [<] and no [>]. *)
Lemma escape_no_markup message : (60 ∉ escape message) ∧ (62 ∉ escape message).
Proof.
  unfold escape. split.
  - rewrite replace_not_elem; [|not_in_literal|done].
    apply replace_elem_old. not_in_literal.
  - apply replace_elem_old. not_in_literal.
Qed.

(** X5: when [do_GET] answers with another status than 200, each line of the
    reply being one line on the wire, the body is the error page built by
    [send_error] around the message of the status line passed through
    [html.escape]: the page shows the message only in escaped form, in
    which no [<] and no [>] is left, so the text of an exception cannot
    open a tag in the page. *)
Theorem X5_error_page_escaped W p hs code message :
  (GET W p hs).1 = Return tt ->
  status (response_of (GET W p hs).2) = Some (code, message) ->
  code ≠ 200 ->
  framed (GET W p hs).2 = true ->
  body (response_of (GET W p hs).2)
  = encode_utf8_replace
      (error_message_format code (escape message)
         (escape match responses code with
                 | Some row => row.2
                 | None => py "???"
                 end))
  ∧ (60 ∉ escape message) ∧ (62 ∉ escape message).
Proof.
  intros Hret Hstatus Hcode _. split; [|apply escape_no_markup].
  revert Hret Hstatus. rewrite GET_run. unfold GET_outcome.
  pose proof (fresh_new_handler p hs) as Hfresh.
  assert (Hreply : forall c m h, fresh h ->
    status (response_of (error_reply W c m h)) = Some (code, message) ->
    body (response_of (error_reply W c m h))
    = encode_utf8_replace
        (error_message_format code (escape message)
           (escape match responses code with
                   | Some row => row.2
                   | None => py "???"
                   end))).
  { intros c m h Hh. rewrite response_of_error_reply by exact Hh.
    cbn [status body]. by intros [= -> ->]. }
  assert (Hexcept : forall e h, fresh h ->
    (except_outcome W e h).1 = Return tt ->
    status (response_of (except_outcome W e h).2) = Some (code, message) ->
    body (response_of (except_outcome W e h).2)
    = encode_utf8_replace
        (error_message_format code (escape message)
           (escape match responses code with
                   | Some row => row.2
                   | None => py "???"
                   end))).
  { intros e h Hh. unfold except_outcome.
    destruct (encode_latin1 (status_text 500 (proxy_error e))); [|discriminate].
    intros _. cbn [fst snd]. by apply Hreply. }
  destruct (startswith p (py "/proxy?")).
  - destruct (parse_qs (drop 7 p) !! py "url") as [[|target_url rest]|].
    + by apply Hexcept.
    + destruct (fetch W target_url) as [data|e].
      * intros _. cbn [fst snd].
        rewrite response_of_success by by apply fresh_fetched.
        cbn [status]. intros [= <- _]. done.
      * apply Hexcept. by apply fresh_fetched.
    + intros _. cbn [fst snd]. by apply Hreply.
  - intros _. cbn [fst snd]. by apply Hreply.
Qed.

Lemma X5_error_page_escaped_witness :
  let p := py "/proxy?url=http://127.0.0.1:1" in
  let message := py "Proxy Error: <urlopen error [Errno 111] Connection refused>" in
  (GET example_world p []).1 = Return tt
  ∧ status (response_of (GET example_world p []).2) = Some (500, message)
  ∧ 500 ≠ 200
  ∧ framed (GET example_world p []).2 = true
  ∧ escape message
    = py "Proxy Error: &lt;urlopen error [Errno 111] Connection refused&gt;"
  ∧ body (response_of (GET example_world p []).2)
    = encode_utf8_replace
        (error_message_format 500 (escape message)
           (escape match responses 500 with
                   | Some row => row.2
                   | None => py "???"
                   end))
  ∧ (60 ∉ escape message) ∧ (62 ∉ escape message).
Proof.
  intros p message.
  assert (H1 : (GET example_world p []).1 = Return tt) by (vm_compute; reflexivity).
  assert (H2 : status (response_of (GET example_world p []).2) = Some (500, message))
    by (vm_compute; reflexivity).
  assert (H3 : 500 ≠ 200) by discriminate.
  assert (H4 : framed (GET example_world p []).2 = true) by (vm_compute; reflexivity).
  repeat (split; [assumption|]). split; [reflexivity|].
  exact (X5_error_page_escaped example_world p [] 500 message H1 H2 H3 H4).
Defined.

(** A reply that is not framed: the text of the exception has CR LF CR LF in
    it, the status line of the 500 reply ends at the first of them, and
    what follows, the rest of the text included, is read as the body. *)
Example GET_unknown_scheme_not_framed :
  let p := py "/proxy?url=x%0D%0A%0D%0Ahello:" in
  parse_qs (drop 7 p) !! py "url" = Some [py "x" ++ [13; 10; 13; 10] ++ py "hello:"]
  ∧ (GET example_world_unknown_scheme p []).1 = Return tt
  ∧ status_code (GET example_world_unknown_scheme p []).2 = Some 500
  ∧ framed (GET example_world_unknown_scheme p []).2 = false.
Proof. repeat split; vm_compute; reflexivity. Qed.

(** X6: [parse_qs(qs)[name]] lists, in the order of the query, the values of
    the fields whose decoded name is [name]; a name without such a field is
    no key, and no key has an empty list, so [params['url'][0]] cannot raise
    an [IndexError]. *)
Theorem X6_parse_qs_values (qs name : pystr) :
  parse_qs qs !! name
  = match values_of name (parse_qsl qs) with
    | [] => None
    | values => Some values
    end
  ∧ parse_qs qs !! name ≠ Some [].
Proof. split; [apply parse_qs_lookup|apply parse_qs_nonempty]. Qed.

Lemma split_cons {A} `{EqDecision A} (sep : A) (s : list A) :
  exists w ws, split sep s = w :: ws.
Proof.
  induction s as [|c s (w & ws & IH)]; [by eexists _, _|].
  cbn [split]. destruct (decide (c = sep)); [by eexists _, _|].
  rewrite IH. by eexists _, _.
Qed.

(** Splitting at a separator: the pieces before it, then those after it. *)
Lemma split_app {A} `{EqDecision A} (sep : A) (s t : list A) :
  split sep (s ++ sep :: t) = split sep s ++ split sep t.
Proof.
  induction s as [|c s IH].
  - cbn. by rewrite decide_True.
  - cbn [app split]. rewrite IH.
    destruct (decide (c = sep)); [reflexivity|].
    by destruct (split_cons sep s) as (w & ws & ->).
Qed.

Lemma split_absent {A} `{EqDecision A} (sep : A) (s : list A) :
  sep ∉ s -> split sep s = [s].
Proof.
  induction s as [|c s IH]; [reflexivity|].
  rewrite not_elem_of_cons. intros [Hne Hs]. cbn [split].
  rewrite decide_False by congruence. by rewrite IH.
Qed.

Lemma parse_qsl_fields qs : parse_qsl qs = flat_map parse_field (split 38 qs).
Proof. by destruct qs. Qed.

Lemma parse_qsl_app (a b : pystr) :
  parse_qsl (a ++ [38] ++ b) = parse_qsl a ++ parse_qsl b.
Proof.
  rewrite !parse_qsl_fields. cbn [app]. by rewrite split_app, flat_map_app.
Qed.

(** X7: the fields of a query are parsed one by one, in order: the pairs of
    [a&b] are the pairs of [a] followed by the pairs of [b]. *)
Theorem X7_parse_qsl_ampersand (a b : pystr) :
  parse_qsl (a ++ [38] ++ b) = parse_qsl a ++ parse_qsl b.
Proof. apply parse_qsl_app. Qed.

(** X9: when the query [a] names a target, fields appended to it after an
    [&] change nothing: the request [/proxy?a&b] has the outcome, the
    response and the outbound request of [/proxy?a]. *)
Theorem X9_appended_fields W a b hs target_url rest :
  parse_qs a !! py "url" = Some (target_url :: rest) ->
  (GET W (py "/proxy?" ++ a ++ [38] ++ b) hs).1 = (GET W (py "/proxy?" ++ a) hs).1
  ∧ response_of (GET W (py "/proxy?" ++ a ++ [38] ++ b) hs).2
    = response_of (GET W (py "/proxy?" ++ a) hs).2
  ∧ urlopen_calls (GET W (py "/proxy?" ++ a ++ [38] ++ b) hs).2
    = urlopen_calls (GET W (py "/proxy?" ++ a) hs).2.
Proof.
  intros Ha.
  assert (Hab : exists rest',
             parse_qs (a ++ [38] ++ b) !! py "url" = Some (target_url :: rest')).
  { revert Ha. rewrite !parse_qs_lookup, parse_qsl_app, values_of_app.
    destruct (values_of (py "url") (parse_qsl a)) as [|v vs]; [discriminate|].
    intros [= -> ->]. cbn [app]. eauto. }
  destruct Hab as [rest' Hab]. unfold GET.
  destruct (do_GET_fetch_agree W W
              (new_handler (py "GET") (py "/proxy?" ++ a ++ [38] ++ b) hs)
              (new_handler (py "GET") (py "/proxy?" ++ a) hs) target_url rest' rest)
    as [Hres Hresp];
    try (apply fresh_new_handler || apply startswith_app || assumption || reflexivity).
  split; [exact Hres|]. split; [exact Hresp|].
  by rewrite (do_GET_fetch_calls W _ target_url rest'),
    (do_GET_fetch_calls W _ target_url rest)
    by (apply fresh_new_handler || apply startswith_app || assumption).
Qed.

Lemma X9_appended_fields_witness :
  let a := py "url=http://example.test/data" in
  let b := py "key=secret&url=http://other.test/" in
  parse_qs a !! py "url" = Some [py "http://example.test/data"]
  ∧ (GET example_world (py "/proxy?" ++ a ++ [38] ++ b) []).1
    = (GET example_world (py "/proxy?" ++ a) []).1
  ∧ response_of (GET example_world (py "/proxy?" ++ a ++ [38] ++ b) []).2
    = response_of (GET example_world (py "/proxy?" ++ a) []).2
  ∧ urlopen_calls (GET example_world (py "/proxy?" ++ a ++ [38] ++ b) []).2
    = urlopen_calls (GET example_world (py "/proxy?" ++ a) []).2.
Proof.
  intros a b.
  assert (H1 : parse_qs a !! py "url" = Some [py "http://example.test/data"])
    by (vm_compute; reflexivity).
  split; [exact H1|].
  exact (X9_appended_fields example_world a b [] _ [] H1).
Defined.

Lemma contains_elem (c : N) (s : pystr) : contains c s = false <-> c ∉ s.
Proof.
  unfold contains. induction s as [|x s IH]; cbn [existsb].
  - split; [intros _; apply not_elem_of_nil|reflexivity].
  - rewrite orb_false_iff, IH, not_elem_of_cons, bool_decide_eq_false.
    split; intros [? ?]; split; congruence.
Qed.

Lemma unquote_no_percent s : 37 ∉ s -> unquote s = s.
Proof. intros Hs. unfold unquote. apply contains_elem in Hs. by rewrite Hs. Qed.

(** The one pair of a field [url=<value>] whose value is not blank and has
    no [&]. *)
Lemma parse_qsl_url value :
  value ≠ [] -> 38 ∉ value ->
  parse_qsl (py "url=" ++ value)
  = [(py "url", unquote (replace 43 [32] value))].
Proof.
  intros Hne Hamp. rewrite parse_qsl_fields, split_absent.
  - destruct value as [|c value]; [done|]. reflexivity.
  - rewrite elem_of_app. intros [H|H]; [revert H; not_in_literal|done].
Qed.

Lemma parse_qs_url value :
  value ≠ [] -> 38 ∉ value ->
  parse_qs (py "url=" ++ value) !! py "url"
  = Some [unquote (replace 43 [32] value)].
Proof.
  intros Hne Hamp. rewrite parse_qs_lookup, parse_qsl_url by assumption.
  reflexivity.
Qed.

(** X8: a target written into the query as it is, without [&] and [%],
    reaches the handler with every [+] turned into a space and is otherwise
    unchanged, non-ASCII characters included. *)
Theorem X8_unescaped_target value :
  value ≠ [] -> 38 ∉ value -> 37 ∉ value ->
  parse_qs (py "url=" ++ value) !! py "url" = Some [replace 43 [32] value].
Proof.
  intros Hne Hamp Hpercent. rewrite parse_qs_url by assumption.
  rewrite unquote_no_percent; [reflexivity|].
  rewrite replace_not_elem; [exact Hpercent|not_in_literal|done].
Qed.

Lemma X8_unescaped_target_witness :
  let value := py "http://example.test/search?q=a+b" in
  value ≠ [] ∧ (38 ∉ value) ∧ (37 ∉ value)
  ∧ parse_qs (py "url=" ++ value) !! py "url"
    = Some [replace 43 [32] value]
  ∧ replace 43 [32] value = py "http://example.test/search?q=a b".
Proof.
  intros value.
  assert (H1 : value ≠ []) by discriminate.
  assert (H2 : 38 ∉ value) by not_in_literal.
  assert (H3 : 37 ∉ value) by not_in_literal.
  repeat (split; [assumption|]).
  split; [exact (X8_unescaped_target value H1 H2 H3)|reflexivity].
Defined.

(** ** The percent-encoded target *)

(** [chr_byte] is the byte of its value. *)
Lemma to_N_chr_byte n : n < 256 -> Byte.to_N (chr_byte n) = n.
Proof.
  intros Hn. unfold chr_byte.
  destruct (Byte.of_N n) as [b|] eqn:Hb.
  - by apply Byte.to_of_N.
  - apply Byte.of_N_None_iff in Hb. lia.
Qed.

(** Division and remainder by constants, for [lia]. *)
Ltac Zify.zify_post_hook ::= Z.to_euclidean_division_equations.

(** The decoder reads back the bytes the encoder writes for a scalar value. *)
Lemma utf8_decode_encode_char c rest :
  scalar_value c = true ->
  utf8_decode (map Byte.to_N (utf8_encode_char c) ++ rest) = c :: utf8_decode rest.
Proof.
  unfold scalar_value. rewrite andb_true_iff, negb_true_iff, andb_false_iff.
  rewrite N.ltb_lt, N.leb_gt, N.ltb_ge. intros [Hmax Hsur].
  unfold utf8_encode_char.
  destruct (N.ltb_spec c 128) as [H1|H1].
  { cbn [map app]. rewrite to_N_chr_byte by lia. cbn [utf8_decode].
    by replace (c <? 128) with true by (symmetry; apply N.ltb_lt; lia). }
  destruct (N.ltb_spec c 2048) as [H2|H2].
  { cbn [map app]. rewrite !to_N_chr_byte by lia. cbn [utf8_decode].
    unfold is_continuation_byte.
    replace (192 + c / 64 <? 128) with false by (symmetry; apply N.ltb_ge; lia).
    replace (192 + c / 64 <? 224) with true by (symmetry; apply N.ltb_lt; lia).
    replace (192 + c / 64 <? 194) with false by (symmetry; apply N.ltb_ge; lia).
    replace (128 <=? 128 + c mod 64) with true by (symmetry; apply N.leb_le; lia).
    replace (128 + c mod 64 <? 192) with true by (symmetry; apply N.ltb_lt; lia).
    cbn [andb]. f_equal. lia. }
  replace ((55296 <=? c) && (c <? 57344)) with false.
  2:{ symmetry. apply andb_false_iff. rewrite N.leb_gt, N.ltb_ge. exact Hsur. }
  destruct (N.ltb_spec c 65536) as [H3|H3].
  { cbn [map app]. rewrite !to_N_chr_byte by lia. cbn [utf8_decode].
    unfold is_continuation_byte.
    replace (224 + c / 4096 <? 128) with false by (symmetry; apply N.ltb_ge; lia).
    replace (224 + c / 4096 <? 224) with false by (symmetry; apply N.ltb_ge; lia).
    replace (224 + c / 4096 <? 240) with true by (symmetry; apply N.ltb_lt; lia).
    replace (128 <=? 128 + (c / 64) mod 64) with true by (symmetry; apply N.leb_le; lia).
    replace (128 + (c / 64) mod 64 <? 192) with true by (symmetry; apply N.ltb_lt; lia).
    replace (128 <=? 128 + c mod 64) with true by (symmetry; apply N.leb_le; lia).
    replace (128 + c mod 64 <? 192) with true by (symmetry; apply N.ltb_lt; lia).
    cbn [andb negb orb].
    replace (if 128 + (c / 64) mod 64 <? 160 then 224 + c / 4096 =? 224
             else 224 + c / 4096 =? 237) with false.
    2:{ symmetry. destruct (N.ltb_spec (128 + (c / 64) mod 64) 160);
          apply N.eqb_neq; lia. }
    f_equal. lia. }
  cbn [map app]. rewrite !to_N_chr_byte by lia. cbn [utf8_decode].
  unfold is_continuation_byte.
  replace (240 + c / 262144 <? 128) with false by (symmetry; apply N.ltb_ge; lia).
  replace (240 + c / 262144 <? 224) with false by (symmetry; apply N.ltb_ge; lia).
  replace (240 + c / 262144 <? 240) with false by (symmetry; apply N.ltb_ge; lia).
  replace (240 + c / 262144 <? 245) with true by (symmetry; apply N.ltb_lt; lia).
  replace (128 <=? 128 + (c / 4096) mod 64) with true by (symmetry; apply N.leb_le; lia).
  replace (128 + (c / 4096) mod 64 <? 192) with true by (symmetry; apply N.ltb_lt; lia).
  replace (128 <=? 128 + (c / 64) mod 64) with true by (symmetry; apply N.leb_le; lia).
  replace (128 + (c / 64) mod 64 <? 192) with true by (symmetry; apply N.ltb_lt; lia).
  replace (128 <=? 128 + c mod 64) with true by (symmetry; apply N.leb_le; lia).
  replace (128 + c mod 64 <? 192) with true by (symmetry; apply N.ltb_lt; lia).
  cbn [andb negb orb].
  replace (if 128 + (c / 4096) mod 64 <? 144 then 240 + c / 262144 =? 240
           else 240 + c / 262144 =? 244) with false.
  2:{ symmetry. destruct (N.ltb_spec (128 + (c / 4096) mod 64) 144);
        apply N.eqb_neq; lia. }
  f_equal. lia.
Qed.

(** [s.encode('utf-8').decode('utf-8')] is [s] for a string of scalar values. *)
Lemma utf8_decode_encode s :
  forallb scalar_value s = true ->
  decode_utf8_replace (encode_utf8_replace s) = s.
Proof.
  unfold decode_utf8_replace, encode_utf8_replace.
  induction s as [|c s IH]; [reflexivity|].
  cbn [forallb flat_map]. intros [Hc Hs]%andb_true_iff.
  rewrite map_app, utf8_decode_encode_char by exact Hc. by rewrite IH.
Qed.

Lemma encode_percent_encoded b :
  encode_utf8_replace (percent_encoded b) = flat_map (fun c => x25 :: hex_pair c) b.
Proof.
  unfold encode_utf8_replace, percent_encoded.
  induction b as [|c b IH]; [reflexivity|].
  cbn [flat_map]. rewrite flat_map_app, IH. f_equal.
  destruct c; reflexivity.
Qed.

Lemma split_percent_encoded b :
  split x25 (flat_map (fun c => x25 :: hex_pair c) b) = [] :: map hex_pair b.
Proof.
  induction b as [|c b IH]; [reflexivity|].
  cbn [flat_map map app]. 
  change (x25 :: hex_pair c ++ flat_map (fun c => x25 :: hex_pair c) b)
    with ([] ++ x25 :: (hex_pair c ++ flat_map (fun c => x25 :: hex_pair c) b)).
  rewrite split_app. cbn [split app]. f_equal.
  assert (Hpair : forall t w ws, split x25 t = w :: ws ->
                    split x25 (hex_pair c ++ t) = (hex_pair c ++ w) :: ws).
  { intros t w ws Ht. destruct c; cbn; by rewrite Ht. }
  rewrite (Hpair _ _ _ IH). by rewrite app_nil_r.
Qed.

Lemma unquote_item_hex_pair c : unquote_item (hex_pair c) = [c].
Proof. destruct c; reflexivity. Qed.

Lemma unquote_items_hex_pairs b : flat_map unquote_item (map hex_pair b) = b.
Proof.
  induction b as [|c b IH]; [reflexivity|].
  cbn [map flat_map]. by rewrite unquote_item_hex_pair, IH.
Qed.

(** [unquote_to_bytes] undoes the escaping of every byte. *)
Lemma unquote_to_bytes_percent_encoded b :
  unquote_to_bytes (percent_encoded b) = b.
Proof.
  destruct b as [|c b]; [reflexivity|].
  unfold unquote_to_bytes.
  change (percent_encoded (c :: b)) with (37 :: tail (percent_encoded (c :: b))) at 1.
  cbv beta iota zeta.
  rewrite encode_percent_encoded, split_percent_encoded.
  cbn [map]. cbv beta iota. cbn [app].
  apply (unquote_items_hex_pairs (c :: b)).
Qed.

Lemma percent_encoded_ascii b : forallb (fun c => c <? 128) (percent_encoded b) = true.
Proof.
  unfold percent_encoded. induction b as [|c b IH]; [reflexivity|].
  cbn [flat_map]. rewrite forallb_app, IH, andb_true_r. destruct c; reflexivity.
Qed.

Lemma asciire_split_ascii s :
  s ≠ [] -> forallb (fun c => c <? 128) s = true -> asciire_split s = [(true, s)].
Proof.
  induction s as [|c s IH]; [done|]. intros _.
  cbn [forallb asciire_split]. intros [Hc Hs]%andb_true_iff. rewrite Hc.
  destruct s as [|c' s]; [reflexivity|].
  rewrite IH by done. reflexivity.
Qed.

(** [unquote] of fully escaped bytes decodes them. *)
Lemma unquote_percent_encoded b :
  unquote (percent_encoded b) = decode_utf8_replace b.
Proof.
  destruct b as [|c b]; [reflexivity|].
  unfold unquote.
  replace (contains 37 (percent_encoded (c :: b))) with true by reflexivity.
  cbn [negb]. rewrite asciire_split_ascii; [|discriminate|apply percent_encoded_ascii].
  cbn [flat_map fst snd]. by rewrite unquote_to_bytes_percent_encoded, app_nil_r.
Qed.

Lemma percent_encoded_chars b c :
  c ∈ percent_encoded b -> c = 37 ∨ (48 <= c <= 57) ∨ (65 <= c <= 70).
Proof.
  unfold percent_encoded. induction b as [|x b IH]; [by intros ?%elem_of_nil|].
  cbn [flat_map]. rewrite elem_of_app. intros [Hx|Hb]; [|by apply IH].
  destruct x; vm_compute in Hx;
    repeat (apply elem_of_cons in Hx; destruct Hx as [->|Hx]; [lia|]);
    by apply elem_of_nil in Hx.
Qed.

Lemma percent_encoded_target_parsed target_url :
  target_url ≠ [] ->
  forallb scalar_value target_url = true ->
  parse_qs (py "url=" ++ percent_encoded (encode_utf8_replace target_url)) !! py "url"
  = Some [target_url].
Proof.
  intros Hne Hscalar.
  set (value := percent_encoded (encode_utf8_replace target_url)).
  assert (Hvalue : value ≠ []).
  { destruct target_url as [|c t]; [done|]. unfold value, encode_utf8_replace.
    cbn [flat_map]. unfold utf8_encode_char.
    repeat match goal with |- context [if ?b then _ else _] => destruct b end;
      discriminate. }
  assert (Hamp : 38 ∉ value) by (intros H%percent_encoded_chars; lia).
  assert (Hplus : 43 ∉ value) by (intros H%percent_encoded_chars; lia).
  rewrite parse_qs_url by assumption.
  rewrite replace_absent by exact Hplus.
  unfold value. by rewrite unquote_percent_encoded, utf8_decode_encode.
Qed.

(** X11: the round trip of the target.  When the query is [url=] followed by
    the percent-encoding of every byte of the UTF-8 form of a target (a
    non-empty string of Unicode scalar values), the parsed [url] value is
    that target, character for character, and the request handed to
    [urlopen], if [Request] accepts the target, is the one for it. *)
Theorem X11_percent_encoded_target W hs target_url :
  target_url ≠ [] ->
  forallb scalar_value target_url = true ->
  parse_qs (py "url=" ++ percent_encoded (encode_utf8_replace target_url)) !! py "url"
  = Some [target_url]
  ∧ urlopen_calls
      (GET W (py "/proxy?" ++ py "url="
              ++ percent_encoded (encode_utf8_replace target_url)) hs).2
    = match Request_raises W target_url with
      | Some _ => []
      | None => [request_for target_url]
      end.
Proof.
  intros Hne Hscalar.
  pose proof (percent_encoded_target_parsed target_url Hne Hscalar) as Hurl.
  split; [exact Hurl|]. unfold GET.
  by rewrite (do_GET_fetch_calls W _ target_url [])
    by (apply fresh_new_handler || apply startswith_app || exact Hurl).
Qed.

Lemma X11_percent_encoded_target_witness :
  let target_url := py "http://example.test/?q=" ++ [8364; 233; 128512] in
  target_url ≠ []
  ∧ forallb scalar_value target_url = true
  ∧ parse_qs (py "url=" ++ percent_encoded (encode_utf8_replace target_url)) !! py "url"
    = Some [target_url]
  ∧ urlopen_calls
      (GET example_world
         (py "/proxy?" ++ py "url="
          ++ percent_encoded (encode_utf8_replace target_url)) []).2
    = match Request_raises example_world target_url with
      | Some _ => []
      | None => [request_for target_url]
      end.
Proof.
  intros target_url.
  assert (H1 : target_url ≠ []) by discriminate.
  assert (H2 : forallb scalar_value target_url = true) by reflexivity.
  split; [exact H1|]. split; [exact H2|].
  exact (X11_percent_encoded_target example_world [] target_url H1 H2).
Defined.

(** ** The characters of a decoded value *)

Lemma scalar_value_spec c :
  scalar_value c = true <-> c < 1114112 ∧ (c < 55296 ∨ 57344 <= c).
Proof.
  unfold scalar_value.
  rewrite andb_true_iff, negb_true_iff, andb_false_iff, N.ltb_lt, N.leb_gt, N.ltb_ge.
  reflexivity.
Qed.

(** Every code point the decoder gives is a scalar value. *)
Lemma utf8_decode_scalar_values (n : nat) : forall s,
  (length s <= n)%nat ->
  Forall (fun b => b < 256) s ->
  forallb scalar_value (utf8_decode s) = true.
Proof.
  induction n as [|n IH]; intros s Hlen Hs.
  { destruct s; [reflexivity|cbn in Hlen; lia]. }
  assert (Hrec : forall t, (length t <= n)%nat -> Forall (fun b => b < 256) t ->
                           forallb scalar_value (U_FFFD :: utf8_decode t) = true).
  { intros t Ht Hb. cbn [forallb]. by rewrite IH. }
  destruct s as [|ch s1]; [reflexivity|].
  apply Forall_cons in Hs as [Hch Hs1]. cbn [length] in Hlen.
  cbn [utf8_decode]. unfold is_continuation_byte.
  destruct (N.ltb_spec ch 128).
  { cbn [forallb]. rewrite IH by (lia || assumption).
    rewrite andb_true_r. apply scalar_value_spec. lia. }
  destruct (N.ltb_spec ch 224).
  { destruct (N.ltb_spec ch 194); [apply Hrec; [lia|assumption]|].
    destruct s1 as [|ch2 s2]; [reflexivity|].
    pose proof Hs1 as Hs1'. apply Forall_cons in Hs1' as [Hch2 Hs2]. cbn [length] in Hlen.
    destruct (N.leb_spec 128 ch2); cbn [andb]; [|apply Hrec; [cbn; lia|assumption]].
    destruct (N.ltb_spec ch2 192); [|apply Hrec; [cbn; lia|assumption]].
    cbn [forallb]. rewrite IH by (lia || assumption).
    rewrite andb_true_r. apply scalar_value_spec. lia. }
  destruct (N.ltb_spec ch 240).
  { destruct s1 as [|ch2 s2]; [reflexivity|].
    pose proof Hs1 as Hs1'. apply Forall_cons in Hs1' as [Hch2 Hs2]. cbn [length] in Hlen.
    destruct (N.leb_spec 128 ch2); cbn [andb negb orb]; [|apply Hrec; [cbn; lia|assumption]].
    destruct (N.ltb_spec ch2 192); cbn [andb negb orb]; [|apply Hrec; [cbn; lia|assumption]].
    destruct (N.ltb_spec ch2 160); destruct (N.eqb_spec ch 224); destruct (N.eqb_spec ch 237);
      try (apply Hrec; [cbn; lia|assumption]); try lia;
      (destruct s2 as [|ch3 s3]; [reflexivity|];
       pose proof Hs2 as Hs2'; apply Forall_cons in Hs2' as [Hch3 Hs3]; cbn [length] in Hlen;
       destruct (N.leb_spec 128 ch3); cbn [andb]; [|apply Hrec; [cbn; lia|assumption]];
       destruct (N.ltb_spec ch3 192); [|apply Hrec; [cbn; lia|assumption]];
       cbn [forallb]; rewrite IH by (lia || assumption);
       rewrite andb_true_r; apply scalar_value_spec; lia). }
  destruct (N.ltb_spec ch 245); [|apply Hrec; [lia|assumption]].
  destruct s1 as [|ch2 s2]; [reflexivity|].
  pose proof Hs1 as Hs1'. apply Forall_cons in Hs1' as [Hch2 Hs2]. cbn [length] in Hlen.
  destruct (N.leb_spec 128 ch2); cbn [andb negb orb]; [|apply Hrec; [cbn; lia|assumption]].
  destruct (N.ltb_spec ch2 192); cbn [andb negb orb]; [|apply Hrec; [cbn; lia|assumption]].
  destruct (N.ltb_spec ch2 144); destruct (N.eqb_spec ch 240); destruct (N.eqb_spec ch 244);
    try (apply Hrec; [cbn; lia|assumption]); try lia;
    (destruct s2 as [|ch3 s3]; [reflexivity|];
     pose proof Hs2 as Hs2'; apply Forall_cons in Hs2' as [Hch3 Hs3]; cbn [length] in Hlen;
     destruct (N.leb_spec 128 ch3); cbn [andb negb]; [|apply Hrec; [cbn; lia|assumption]];
     destruct (N.ltb_spec ch3 192); cbn [andb negb]; [|apply Hrec; [cbn; lia|assumption]];
     destruct s3 as [|ch4 s4]; [reflexivity|];
     pose proof Hs3 as Hs3'; apply Forall_cons in Hs3' as [Hch4 Hs4]; cbn [length] in Hlen;
     destruct (N.leb_spec 128 ch4); cbn [andb]; [|apply Hrec; [cbn; lia|assumption]];
     destruct (N.ltb_spec ch4 192); [|apply Hrec; [cbn; lia|assumption]];
     cbn [forallb]; rewrite IH by (lia || assumption);
     rewrite andb_true_r; apply scalar_value_spec; lia).
Qed.

Lemma decode_utf8_replace_scalar b :
  forallb scalar_value (decode_utf8_replace b) = true.
Proof.
  unfold decode_utf8_replace.
  apply (utf8_decode_scalar_values (length (map Byte.to_N b))); [lia|].
  apply Forall_forall. intros n [c [-> _]]%list_elem_of_fmap.
  pose proof (Byte.to_N_bounded c). lia.
Qed.

Section Pieces.
Context (P : N -> bool).

Lemma forallb_flat_map {A} (f : A -> pystr) (l : list A) :
  (forall x, x ∈ l -> forallb P (f x) = true) ->
  forallb P (flat_map f l) = true.
Proof.
  induction l as [|x l IH]; [reflexivity|]. intros Hl. cbn [flat_map].
  rewrite forallb_app, Hl, IH; [reflexivity| |apply list_elem_of_here].
  intros y Hy. apply Hl. by apply list_elem_of_further.
Qed.

Lemma split_pieces (sep : N) s w :
  forallb P s = true -> w ∈ split sep s -> forallb P w = true.
Proof.
  revert w. induction s as [|c s IH]; intros w Hs.
  - by intros ->%list_elem_of_singleton.
  - cbn [forallb] in Hs. apply andb_true_iff in Hs as [Hc Hs]. cbn [split].
    destruct (decide (c = sep)).
    + intros [->|Hw]%elem_of_cons; [reflexivity|by apply IH].
    + destruct (split sep s) as [|w' ws] eqn:Hsplit.
      * intros ->%list_elem_of_singleton. cbn. by rewrite Hc.
      * intros [->|Hw]%elem_of_cons.
        -- cbn [forallb]. rewrite Hc. apply IH; [exact Hs|apply list_elem_of_here].
        -- apply IH; [exact Hs|by apply list_elem_of_further].
Qed.

Lemma split1_pieces (sep : N) s w :
  forallb P s = true -> w ∈ split1 sep s -> forallb P w = true.
Proof.
  revert w. induction s as [|c s IH]; intros w Hs.
  - by intros ->%list_elem_of_singleton.
  - cbn [forallb] in Hs. apply andb_true_iff in Hs as [Hc Hs]. cbn [split1].
    destruct (decide (c = sep)).
    + intros [->|Hw]%elem_of_cons; [reflexivity|].
      by apply list_elem_of_singleton in Hw as ->.
    + destruct (split1 sep s) as [|w' ws] eqn:Hsplit.
      * intros ->%list_elem_of_singleton. cbn. by rewrite Hc.
      * intros [->|Hw]%elem_of_cons.
        -- cbn [forallb]. rewrite Hc. apply IH; [exact Hs|apply list_elem_of_here].
        -- apply IH; [exact Hs|by apply list_elem_of_further].
Qed.

Lemma replace_pieces (old : N) new s :
  forallb P new = true -> forallb P s = true -> forallb P (replace old new s) = true.
Proof.
  intros Hnew Hs. unfold replace. apply forallb_flat_map.
  intros x Hx. destruct (decide (x = old)); [exact Hnew|].
  cbn. rewrite andb_true_r. rewrite forallb_forall in Hs. apply Hs.
  by apply list_elem_of_In.
Qed.

Lemma asciire_split_pieces s bit :
  forallb P s = true -> bit ∈ asciire_split s -> forallb P bit.2 = true.
Proof.
  revert bit. induction s as [|c s IH]; intros bit Hs.
  - by intros ?%elem_of_nil.
  - cbn [forallb] in Hs. apply andb_true_iff in Hs as [Hc Hs]. cbn [asciire_split].
    destruct (asciire_split s) as [|[a' run] bits] eqn:Hsplit.
    + intros ->%list_elem_of_singleton. cbn. by rewrite Hc.
    + destruct (Bool.eqb (c <? 128) a').
      * intros [->|Hbit]%elem_of_cons.
        -- cbn [snd forallb]. rewrite Hc.
           apply (IH (a', run)); [exact Hs|apply list_elem_of_here].
        -- apply IH; [exact Hs|by apply list_elem_of_further].
      * intros [->|Hbit]%elem_of_cons; [cbn; by rewrite Hc|].
        by apply IH.
Qed.
End Pieces.

(** [unquote] keeps a string of scalar values one. *)
Lemma unquote_scalar s :
  forallb scalar_value s = true -> forallb scalar_value (unquote s) = true.
Proof.
  intros Hs. unfold unquote. destruct (negb (contains 37 s)); [exact Hs|].
  apply forallb_flat_map. intros bit Hbit. destruct bit.1.
  - apply decode_utf8_replace_scalar.
  - by apply (asciire_split_pieces scalar_value s).
Qed.

Lemma latin1_scalar s : latin1 s = true -> forallb scalar_value s = true.
Proof.
  unfold latin1. rewrite !forallb_forall. intros Hs c Hc.
  apply Hs, N.ltb_lt in Hc. apply scalar_value_spec. lia.
Qed.

Lemma parse_field_scalar name_value pair :
  forallb scalar_value name_value = true ->
  pair ∈ parse_field name_value ->
  forallb scalar_value pair.1 = true ∧ forallb scalar_value pair.2 = true.
Proof.
  intros Hs. unfold parse_field. destruct name_value as [|c nv]; [by intros ?%elem_of_nil|].
  pose proof (split1_pieces scalar_value 61 (c :: nv)) as Hpieces.
  destruct (split1 61 (c :: nv)) as [|name [|value [|]]]; try by intros ?%elem_of_nil.
  destruct value as [|v value]; [by intros ?%elem_of_nil|].
  intros ->%list_elem_of_singleton. cbn [fst snd].
  split; apply unquote_scalar, replace_pieces; try reflexivity;
    apply Hpieces; try exact Hs; set_solver.
Qed.

(** X12: whatever the request line holds (it is decoded as latin-1), every
    value [parse_qs] returns, the target among them, consists of Unicode
    scalar values: percent-decoding never yields a surrogate or a code
    point above U+10FFFF, an ill-formed sequence becoming U+FFFD. *)
Theorem X12_target_scalar_values qs name values value :
  latin1 qs = true ->
  parse_qs qs !! name = Some values ->
  value ∈ values ->
  forallb scalar_value value = true.
Proof.
  intros Hqs%latin1_scalar. rewrite parse_qs_lookup.
  intros Hvalues Hvalue.
  assert (Hin : value ∈ values_of name (parse_qsl qs)).
  { destruct (values_of name (parse_qsl qs)); [discriminate|]. by injection Hvalues as <-. }
  clear Hvalues Hvalue. unfold values_of in Hin.
  apply list_elem_of_In, in_flat_map in Hin as ([k v] & Hpair & Hv).
  cbn [fst snd] in Hv. destruct (decide (k = name)); [|by destruct Hv].
  destruct Hv as [<-|[]].
  rewrite parse_qsl_fields in Hpair.
  apply in_flat_map in Hpair as (field & Hfield & Hpair).
  apply (parse_field_scalar field (k, v)); [|by apply list_elem_of_In].
  apply (split_pieces scalar_value 38 qs); [exact Hqs|by apply list_elem_of_In].
Qed.

Lemma X12_target_scalar_values_witness :
  let qs := py "url=http://x/%ED%A0%80%F4%90%80%80" ++ [233] in
  latin1 qs = true
  ∧ parse_qs qs !! py "url"
    = Some [py "http://x/" ++ [65533; 65533; 65533; 65533; 65533; 65533; 65533; 233]]
  ∧ (py "http://x/" ++ [65533; 65533; 65533; 65533; 65533; 65533; 65533; 233])
    ∈ [py "http://x/" ++ [65533; 65533; 65533; 65533; 65533; 65533; 65533; 233]]
  ∧ forallb scalar_value
      (py "http://x/" ++ [65533; 65533; 65533; 65533; 65533; 65533; 65533; 233]) = true.
Proof.
  intros qs.
  assert (H1 : latin1 qs = true) by reflexivity.
  assert (H2 : parse_qs qs !! py "url"
               = Some [py "http://x/"
                       ++ [65533; 65533; 65533; 65533; 65533; 65533; 65533; 233]])
    by (vm_compute; reflexivity).
  assert (H3 : (py "http://x/" ++ [65533; 65533; 65533; 65533; 65533; 65533; 65533; 233])
               ∈ [py "http://x/"
                  ++ [65533; 65533; 65533; 65533; 65533; 65533; 65533; 233]])
    by apply list_elem_of_here.
  split; [exact H1|]. split; [exact H2|]. split; [exact H3|].
  exact (X12_target_scalar_values qs (py "url") _ _ H1 H2 H3).
Defined.
